(** * Lemolex Python client: payload construction and the job poller

    A shallow embedding of [examples/python-client.py]: the request payload
    builders of [LemolexAPI.get_video_info] and [LemolexAPI.download_video],
    the HTTP wrapper [LemolexAPI._make_request], and the polling loop
    [LemolexAPI.wait_for_completion].

    Python values are an inductive type of JSON-like values, dictionaries are
    finite maps with string keys, the HTTP session, [time.sleep] and the
    caller's progress callback are handlers over an abstract world, and the
    client code runs in a state-and-exception monad that also records every
    call the client makes.  Console output ([print]) is not modelled. *)

From Stdlib Require Import Ascii.
From stdpp Require Import gmap strings list fin_maps pretty.

#[local] Set Warnings "-register-all".
#[local] Open Scope string_scope.

(** ** Python values *)

(** The values that travel through the client: JSON documents and the
    arguments of the public methods.  Non-integer numbers are left out; the
    client never inspects a number. *)
Inductive pyval : Type :=
  | VNone
  | VBool (b : bool)
  | VInt (z : Z)
  | VStr (s : string)
  | VList (l : list pyval)
  | VDict (d : gmap string pyval).

(** Python truth value testing, as used by [if x:] and [not x]. *)
Definition truthy (v : pyval) : bool :=
  match v with
  | VNone => false
  | VBool b => b
  | VInt z => negb (Z.eqb z 0)
  | VStr s => negb (String.eqb s EmptyString)
  | VList l => match l with [] => false | _ :: _ => true end
  | VDict d => negb (bool_decide (d = ∅))
  end.

(** [v is not None]: the argument was supplied with a value. *)
Definition is_present (v : pyval) : bool :=
  match v with VNone => false | _ => true end.

(** [v == s] for a string literal [s]: values of another type never equal
    a string. *)
Definition py_eq_str (v : pyval) (s : string) : bool :=
  match v with VStr s' => String.eqb s' s | _ => false end.

(** ** Exceptions and results *)

Inductive exn : Type :=
  | Exception (arg : pyval)
  | KeyError (key : string)
  | TypeError
  | AttributeError
  | KeyboardInterrupt
  | OtherError (cls : string) (arg : pyval).

Definition is_KeyboardInterrupt (e : exn) : bool :=
  match e with KeyboardInterrupt => true | _ => false end.

Inductive result (A : Type) : Type :=
  | Ret (a : A)
  | Raise (e : exn).
Arguments Ret {A} a.
Arguments Raise {A} e.

(** [v.get(k, default)]: only dictionaries have the method. *)
Definition py_get (v : pyval) (k : string) (default : pyval) : result pyval :=
  match v with
  | VDict d => Ret (match d !! k with Some x => x | None => default end)
  | _ => Raise AttributeError
  end.

(** [v[k]] with a string key. *)
Definition py_index (v : pyval) (k : string) : result pyval :=
  match v with
  | VDict d => match d !! k with Some x => Ret x | None => Raise (KeyError k) end
  | _ => Raise TypeError
  end.

(** ** Request payloads *)

Module Payload.

(** The dictionary [data] that [get_video_info] hands to [_make_request]. *)
Definition get_video_info_data
    (url cookies cookies_from_browser user_agent : pyval) : gmap string pyval :=
  let data := {[ "url" := url ]} in
  let data := if truthy cookies then <["cookies" := cookies]> data else data in
  let data := if truthy cookies_from_browser
              then <["cookiesFromBrowser" := cookies_from_browser]> data else data in
  let data := if truthy user_agent then <["userAgent" := user_agent]> data else data in
  data.

(** The dictionary [data] that [download_video] hands to [_make_request]. *)
Definition download_video_data
    (url format quality output_path filename
     cookies cookies_from_browser user_agent : pyval) : gmap string pyval :=
  let data := <["quality" := quality]> (<["format" := format]> {[ "url" := url ]}) in
  let data := if truthy output_path then <["outputPath" := output_path]> data else data in
  let data := if truthy filename then <["filename" := filename]> data else data in
  let data := if truthy cookies then <["cookies" := cookies]> data else data in
  let data := if truthy cookies_from_browser
              then <["cookiesFromBrowser" := cookies_from_browser]> data else data in
  let data := if truthy user_agent then <["userAgent" := user_agent]> data else data in
  data.

(** The entry an optional argument leaves in the payload under its key. *)
Definition entry (v : pyval) : option pyval :=
  if truthy v then Some v else None.

(** The key/value pair an optional argument contributes. *)
Definition opt_pair (k : string) (v : pyval) : list (string * pyval) :=
  if truthy v then [(k, v)] else [].

(** All pairs of the two payloads, in the order the source writes them. *)
Definition get_video_info_pairs
    (url cookies cookies_from_browser user_agent : pyval) : list (string * pyval) :=
  [("url", url)] ++ opt_pair "cookies" cookies
    ++ opt_pair "cookiesFromBrowser" cookies_from_browser
    ++ opt_pair "userAgent" user_agent.

Definition download_video_pairs
    (url format quality output_path filename
     cookies cookies_from_browser user_agent : pyval) : list (string * pyval) :=
  [("url", url); ("format", format); ("quality", quality)]
    ++ opt_pair "outputPath" output_path ++ opt_pair "filename" filename
    ++ opt_pair "cookies" cookies
    ++ opt_pair "cookiesFromBrowser" cookies_from_browser
    ++ opt_pair "userAgent" user_agent.

End Payload.

(** ** The client in a state-and-exception monad *)

Record LemolexAPI : Type := { base_url : string }.

(** Keyword arguments of [session.request]. *)
Inductive kwargs : Type :=
  | NoKwargs
  | JsonBody (data : gmap string pyval).

(** The response object reachable from a [RequestException]:
    [json_body = None] stands for a body on which [response.json()] raises
    [json.JSONDecodeError]. *)
Record http_response : Type :=
  { status_code : Z; text : string; json_body : option pyval }.

(** What the three calls [session.request], [raise_for_status] and [json]
    of [_make_request] come to. *)
Inductive http_outcome : Type :=
  | HttpOk (body : pyval)
  | HttpRequestException (str_e : string) (response : option http_response)
  | HttpRaises (e : exn).

Section Client.

(** The outside world: the HTTP session, the clock and whatever state the
    caller's callback keeps. *)
Variable W : Type.
Variable duration : Type.
Variable session_request : string → string → kwargs → W → http_outcome * W.
Variable time_sleep : duration → W → result unit * W.

(** A progress callback; its return value is ignored by the client. *)
Definition callback : Type := pyval → W → result pyval * W.

(** The calls the client makes, in the order it makes them. *)
Inductive event : Type :=
  | EvRequest (method url : string) (kw : kwargs)
  | EvSink (download : pyval)
  | EvSleep (t : duration).

Record state : Type := { world : W; trace : list event }.

Definition M (A : Type) : Type := state → result A * state.

#[global] Instance M_ret : MRet M := λ A a s, (Ret a, s).
#[global] Instance M_bind : MBind M := λ A B k m s,
  match m s with
  | (Ret a, s') => k a s'
  | (Raise e, s') => (Raise e, s')
  end.
Definition raise {A} (e : exn) : M A := fun s => (Raise e, s).
Definition lift {A} (r : result A) : M A := fun s => (r, s).

(** [try: body / except <filter> as e: handler e]. *)
Definition try_except {A} (body : M A) (filter : exn → bool) (handler : exn → M A) : M A :=
  fun s => match body s with
           | (Raise e, s') => if filter e then handler e s' else (Raise e, s')
           | r => r
           end.

(** [try: m / except: pass]. *)
Definition swallow {A} (m : M A) : M unit :=
  fun s => let '(_, s') := m s in (Ret tt, s').

(** One external call: the world answers, the trace grows. *)
Definition call {A} (ev : event) (h : W → A * W) : state → A * state :=
  fun s => let '(a, w') := h (world s) in
           (a, {| world := w'; trace := trace s ++ [ev] |}).

Definition _make_request (self : LemolexAPI) (method endpoint : string)
    (kw : kwargs) : M pyval :=
  let url := base_url self ++ endpoint in
  fun s =>
    let '(o, s') := call (EvRequest method url kw) (session_request method url kw) s in
    match o with
    | HttpOk body => (Ret body, s')
    | HttpRequestException str_e (Some response) =>
        match json_body response with
        | Some error_data =>
            (error ← lift (py_get error_data "error" (VStr str_e));
             raise (Exception error)) s'
        | None =>
            (Raise (Exception (VStr ("HTTP " ++ pretty (status_code response)
                                       ++ ": " ++ text response))), s')
        end
    | HttpRequestException str_e None => (Raise (Exception (VStr str_e)), s')
    | HttpRaises e => (Raise e, s')
    end.

Definition get_video_info (self : LemolexAPI)
    (url cookies cookies_from_browser user_agent : pyval) : M pyval :=
  _make_request self "POST" "/info"
    (JsonBody (Payload.get_video_info_data url cookies cookies_from_browser user_agent)).

Definition download_video (self : LemolexAPI)
    (url format quality output_path filename
     cookies cookies_from_browser user_agent : pyval) : M pyval :=
  _make_request self "POST" "/download"
    (JsonBody (Payload.download_video_data url format quality output_path filename
                 cookies cookies_from_browser user_agent)).

Definition get_download_status (self : LemolexAPI) (download_id : string) : M pyval :=
  _make_request self "GET" ("/download/" ++ download_id) NoKwargs.

Definition cancel_download (self : LemolexAPI) (download_id : string) : M pyval :=
  _make_request self "DELETE" ("/download/" ++ download_id) NoKwargs.

Definition sleep (check_interval : duration) : M unit :=
  call (EvSleep check_interval) (time_sleep check_interval).

(** How one pass through the body of [while True] ends. *)
Inductive ctl : Type :=
  | Continue
  | Return (download : pyval).

(** The [try] block of the loop body. *)
Definition poll_once (self : LemolexAPI) (download_id : string)
    (on_progress : option callback) (check_interval : duration) : M ctl :=
  result ← get_download_status self download_id;
  success ← lift (py_get result "success" VNone);
  if negb (truthy success) then
    error ← lift (py_get result "error" (VStr "Unknown error"));
    raise (Exception error)
  else
    download ← lift (py_index result "data");
    (match on_progress with
     | Some f => call (EvSink download) (f download)
     | None => mret VNone
     end) ;;
    status ← lift (py_index download "status");
    if py_eq_str status "completed" then mret (Return download)
    else if py_eq_str status "failed" then
      error ← lift (py_get download "error" (VStr "Download failed"));
      raise (Exception error)
    else if py_eq_str status "cancelled" then
      raise (Exception (VStr "Download was cancelled"))
    else
      sleep check_interval ;;
      mret Continue.

(** The loop body: the [try] block with its [except KeyboardInterrupt]
    handler, which cancels the download (ignoring any failure of that
    call) and re-raises. *)
Definition loop_body (self : LemolexAPI) (download_id : string)
    (on_progress : option callback) (check_interval : duration) : M ctl :=
  try_except (poll_once self download_id on_progress check_interval)
    is_KeyboardInterrupt
    (fun e => swallow (cancel_download self download_id) ;; raise e).

(** [while True]: [fuel] bounds the number of passes; [None] means the
    bound was reached with the loop still running. *)
Fixpoint wait_for_completion (fuel : nat) (self : LemolexAPI) (download_id : string)
    (on_progress : option callback) (check_interval : duration)
    (s : state) : option (result pyval * state) :=
  match fuel with
  | O => None
  | S fuel' =>
      match loop_body self download_id on_progress check_interval s with
      | (Ret (Return download), s') => Some (Ret download, s')
      | (Ret Continue, s') =>
          wait_for_completion fuel' self download_id on_progress check_interval s'
      | (Raise e, s') => Some (Raise e, s')
      end
  end.

(** ** Vocabulary for statements about the poller *)

(** The URL of the status and cancel requests for a download. *)
Definition status_url (self : LemolexAPI) (download_id : string) : string :=
  base_url self ++ "/download/" ++ download_id.

(** The job record a status response carries: the response is a dictionary
    whose [success] is truthy and which has a [data] entry. *)
Definition sample_of (response : pyval) : option pyval :=
  match response with
  | VDict m =>
      match m !! "success" with
      | Some success => if truthy success then m !! "data" else None
      | None => None
      end
  | _ => None
  end.

(** The record has a [status] and it is none of the three the loop stops on. *)
Definition is_pending (download : pyval) : bool :=
  match py_index download "status" with
  | Ret status =>
      negb (py_eq_str status "completed") && negb (py_eq_str status "failed")
        && negb (py_eq_str status "cancelled")
  | Raise _ => false
  end.

Definition has_status (download : pyval) (status : string) : Prop :=
  py_index download "status" = Ret (VStr status).

(** The callback, when there is one, returns normally on [download] and
    takes the world from [w] to [w']. *)
Definition sink_returns (on_progress : option callback) (download : pyval)
    (w w' : W) : Prop :=
  match on_progress with
  | Some f => ∃ r, f download w = (Ret r, w')
  | None => w' = w
  end.

(** The callback raises [e] on [download]. *)
Definition sink_raises (on_progress : option callback) (download : pyval)
    (e : exn) (w w' : W) : Prop :=
  ∃ f, on_progress = Some f ∧ f download w = (Raise e, w').

Definition ev_status (self : LemolexAPI) (download_id : string) : event :=
  EvRequest "GET" (status_url self download_id) NoKwargs.

Definition ev_cancel (self : LemolexAPI) (download_id : string) : event :=
  EvRequest "DELETE" (status_url self download_id) NoKwargs.

Definition ev_sink (on_progress : option callback) (download : pyval) : list event :=
  match on_progress with Some _ => [EvSink download] | None => [] end.

(** The calls of the passes that saw the pending records [ds]. *)
Definition pending_events (self : LemolexAPI) (download_id : string)
    (on_progress : option callback) (t : duration) (ds : list pyval) : list event :=
  ds ≫= (λ d, ev_status self download_id :: ev_sink on_progress d ++ [EvSleep t]).

(** The records handed to the callback, in call order. *)
Definition sink_args (tr : list event) : list pyval :=
  omap (λ ev, match ev with EvSink d => Some d | _ => None end) tr.

(** The HTTP requests made, in call order. *)
Definition requests (tr : list event) : list (string * string) :=
  omap (λ ev, match ev with EvRequest m u _ => Some (m, u) | _ => None end) tr.

(** The sleeps taken, in call order. *)
Definition sleeps (tr : list event) : list duration :=
  omap (λ ev, match ev with EvSleep t => Some t | _ => None end) tr.

(** [polls w ds w']: from world [w] the service answers successive status
    queries with the pending records [ds], the callback returns normally on
    each and no sleep is disturbed; the world is then [w']. *)
Inductive polls (self : LemolexAPI) (download_id : string)
    (on_progress : option callback) (t : duration) : W → list pyval → W → Prop :=
  | polls_nil w : polls self download_id on_progress t w [] w
  | polls_cons w response w1 d w2 w3 ds w' :
      session_request "GET" (status_url self download_id) NoKwargs w
        = (HttpOk response, w1) →
      sample_of response = Some d →
      is_pending d = true →
      sink_returns on_progress d w1 w2 →
      time_sleep t w2 = (Ret tt, w3) →
      polls self download_id on_progress t w3 ds w' →
      polls self download_id on_progress t w (d :: ds) w'.

(** [interrupted w evs w']: a pass of the loop that starts in world [w] is
    hit by a [KeyboardInterrupt] during the status query, during the
    callback, or during the sleep; [evs] are the calls made up to that point
    and [w'] is the world at that point. *)
Inductive interrupted (self : LemolexAPI) (download_id : string)
    (on_progress : option callback) (t : duration) : W → list event → W → Prop :=
  | interrupted_query w w1 :
      session_request "GET" (status_url self download_id) NoKwargs w
        = (HttpRaises KeyboardInterrupt, w1) →
      interrupted self download_id on_progress t w [ev_status self download_id] w1
  | interrupted_sink w response w1 d f w2 :
      session_request "GET" (status_url self download_id) NoKwargs w
        = (HttpOk response, w1) →
      sample_of response = Some d →
      on_progress = Some f →
      f d w1 = (Raise KeyboardInterrupt, w2) →
      interrupted self download_id on_progress t w
        [ev_status self download_id; EvSink d] w2
  | interrupted_sleep w response w1 d w2 w3 :
      session_request "GET" (status_url self download_id) NoKwargs w
        = (HttpOk response, w1) →
      sample_of response = Some d →
      is_pending d = true →
      sink_returns on_progress d w1 w2 →
      time_sleep t w2 = (Raise KeyboardInterrupt, w3) →
      interrupted self download_id on_progress t w
        (ev_status self download_id :: ev_sink on_progress d ++ [EvSleep t]) w3.

(** A final result of the loop seen from inside the loop body. *)
Definition ctl_of (r : result pyval) : result ctl :=
  match r with Ret d => Ret (Return d) | Raise e => Raise e end.

(** What the loop does with a record whose status ends it. *)
Definition terminal_outcome (download : pyval) : result pyval :=
  match py_index download "status" with
  | Ret status =>
      if py_eq_str status "completed" then Ret download
      else if py_eq_str status "failed" then
        match py_get download "error" (VStr "Download failed") with
        | Ret error => Raise (Exception error)
        | Raise e => Raise e
        end
      else Raise (Exception (VStr "Download was cancelled"))
  | Raise e => Raise e
  end.

(** The exception [_make_request] raises for a [RequestException]. *)
Definition transport_error (str_e : string) (response : option http_response) : exn :=
  match response with
  | Some r =>
      match json_body r with
      | Some error_data =>
          match py_get error_data "error" (VStr str_e) with
          | Ret error => Exception error
          | Raise e => e
          end
      | None => Exception (VStr ("HTTP " ++ pretty (status_code r) ++ ": " ++ text r))
      end
  | None => Exception (VStr str_e)
  end.

End Client.

Arguments sink_returns {W} on_progress download w w'.
Arguments sink_raises {W} on_progress download e w w'.
Arguments ev_status {duration} self download_id.
Arguments ev_cancel {duration} self download_id.
Arguments ev_sink {W duration} on_progress download.
Arguments pending_events {W duration} self download_id on_progress t ds.
Arguments sink_args {duration} tr.
Arguments requests {duration} tr.
Arguments sleeps {duration} tr.
Arguments world {W duration} s.
Arguments trace {W duration} s.
Arguments EvRequest {duration} method url kw.
Arguments EvSink {duration} download.
Arguments EvSleep {duration} t.

(** The names the interface description gives to the poller's failures;
    the client raises plain [Exception] for each. *)
Definition JobFailed (message : pyval) : exn := Exception message.
Definition JobCancelled : exn := Exception (VStr "Download was cancelled").

(** ** A scripted world

    A world in which the service, the clock and the callback answer from
    three fixed scripts, one entry per call; an exhausted script answers
    with its default. *)
Module Scripted.

Record script : Type :=
  { http_script : list http_outcome;
    sleep_script : list (result unit);
    sink_script : list (result pyval) }.

Definition session_request (method url : string) (kw : kwargs)
    (w : script) : http_outcome * script :=
  match http_script w with
  | o :: rest =>
      (o, {| http_script := rest; sleep_script := sleep_script w;
             sink_script := sink_script w |})
  | [] => (HttpRequestException "connection refused" None, w)
  end.

Definition time_sleep (t : unit) (w : script) : result unit * script :=
  match sleep_script w with
  | r :: rest =>
      (r, {| http_script := http_script w; sleep_script := rest;
             sink_script := sink_script w |})
  | [] => (Ret tt, w)
  end.

Definition sink (download : pyval) (w : script) : result pyval * script :=
  match sink_script w with
  | r :: rest =>
      (r, {| http_script := http_script w; sleep_script := sleep_script w;
             sink_script := rest |})
  | [] => (Ret VNone, w)
  end.

Definition api : LemolexAPI := {| base_url := "http://localhost:3001/api" |}.

Definition job (fields : list (string * pyval)) : pyval := VDict (list_to_map fields).

(** A successful status response carrying the record [d]. *)
Definition ok (d : pyval) : http_outcome :=
  HttpOk (VDict (<["data" := d]> {[ "success" := VBool true ]})).

(** The service's reply to a cancel request that went through. *)
Definition cancel_ok : http_outcome :=
  HttpOk (VDict {[ "success" := VBool true ]}).

Definition starting : pyval :=
  job [("id", VStr "job-1"); ("status", VStr "starting"); ("progress", VInt 0)].
Definition downloading (percent : Z) : pyval :=
  job [("id", VStr "job-1"); ("status", VStr "downloading"); ("progress", VInt percent)].
Definition completed : pyval :=
  job [("id", VStr "job-1"); ("status", VStr "completed"); ("progress", VInt 100);
       ("filename", VStr "video.mp4")].
Definition failed : pyval :=
  job [("id", VStr "job-1"); ("status", VStr "failed"); ("error", VStr "disk full")].
Definition cancelled : pyval :=
  job [("id", VStr "job-1"); ("status", VStr "cancelled"); ("error", VStr "stopped")].

Definition init (http : list http_outcome) (sleeps : list (result unit))
    (sinks : list (result pyval)) : state script unit :=
  {| world := {| http_script := http; sleep_script := sleeps;
                 sink_script := sinks |};
     trace := [] |}.

Definition url : string := "http://localhost:3001/api/download/job-1".
Definition GET : event unit := EvRequest "GET" url NoKwargs.
Definition DELETE : event unit := EvRequest "DELETE" url NoKwargs.

(** [wait_for_completion] run against the scripts. *)
Definition wait (fuel : nat) (with_sink : bool) (s : state script unit)
    : option (result pyval * state script unit) :=
  wait_for_completion script unit session_request time_sleep fuel api "job-1"
    (if with_sink then Some sink else None) tt s.

End Scripted.

(** ** A settled service

    A world in which the download is finished for good: every request is
    answered with the same completed record.  The world counts the requests
    the service has received. *)
Module Settled.

Definition session_request (method url : string) (kw : kwargs)
    (served : nat) : http_outcome * nat :=
  (Scripted.ok Scripted.completed, S served).

Definition time_sleep (t : unit) (served : nat) : result unit * nat :=
  (Ret tt, served).

Definition sink (download : pyval) (served : nat) : result pyval * nat :=
  (Ret VNone, served).

Definition wait (fuel : nat) (s : state nat unit)
    : option (result pyval * state nat unit) :=
  wait_for_completion nat unit session_request time_sleep fuel Scripted.api "job-1"
    (Some sink) tt s.

End Settled.

(** ** The rest of the client *)

(** [s.rstrip(c)] for a one-character [c]: [s] without its trailing run of
    [c]. *)
Fixpoint rstrip (s : string) (c : ascii) : string :=
  match s with
  | EmptyString => EmptyString
  | String a s' =>
      match rstrip s' c with
      | EmptyString => if Ascii.eqb a c then EmptyString else String a EmptyString
      | r => String a r
      end
  end.

(** [LemolexAPI.__init__]: the base URL is stored without trailing slashes.
    The [requests.Session] it creates is part of the world. *)
Definition __init__ (url : string) : LemolexAPI :=
  {| base_url := rstrip url "/"%char |}.

(** The query parameters [params] that [get_all_downloads] builds. *)
Definition get_all_downloads_params (status limit : pyval) : gmap string pyval :=
  let params := {[ "limit" := limit ]} in
  let params := if truthy status then <["status" := status]> params else params in
  params.

(** How a run of the poller ended: with the interrupt handler or not. *)
Definition interrupted_result (r : result pyval) : bool :=
  match r with Raise e => is_KeyboardInterrupt e | Ret _ => false end.

(** The calls of a pass that ends in an exception, the status request
    apart: at most one callback call and one sleep, of the given length, and
    no request. *)
Definition quiet {W duration : Type} (on_progress : option (callback W))
    (t : duration) (evs : list (event duration)) : Prop :=
  requests evs = [] ∧ Forall (eq t) (sleeps evs) ∧ (length (sleeps evs) ≤ 1)%nat
  ∧ (length (sink_args evs) ≤ 1)%nat ∧ (on_progress = None → sink_args evs = []).

Section Workflow.

Variable W : Type.
Variable duration : Type.
Variable session_request : string → string → kwargs → W → http_outcome * W.
Variable time_sleep : duration → W → result unit * W.

(** [str(v)], as an f-string applies it to the download id; on a string it
    is the string itself. *)
Variable py_str : pyval → string.

(** The default [check_interval] of [wait_for_completion], [1.0]. *)
Variable default_check_interval : duration.

(** [download_with_progress]: start the download, read the id out of the
    reply, and wait for the download under the default interval. *)
Definition download_with_progress (fuel : nat) (self : LemolexAPI)
    (url format quality output_path filename
     cookies cookies_from_browser user_agent : pyval)
    (on_progress : option (callback W))
    (s : state W duration) : option (result pyval * state W duration) :=
  match download_video W duration session_request self url format quality
          output_path filename cookies cookies_from_browser user_agent s with
  | (Raise e, s') => Some (Raise e, s')
  | (Ret download_result, s') =>
      match py_index download_result "data" with
      | Raise e => Some (Raise e, s')
      | Ret data =>
          match py_index data "id" with
          | Raise e => Some (Raise e, s')
          | Ret download_id =>
              wait_for_completion W duration session_request time_sleep fuel self
                (py_str download_id) on_progress default_check_interval s'
          end
      end
  end.

End Workflow.

(** ** Formatting helpers *)

(** [f"{n:02d}"]: at least two characters, zero-padded; a negative number
    is already two characters long with its sign. *)
Definition fmt_02d (n : Z) : string :=
  if bool_decide (0 ≤ n < 10)%Z then "0" ++ pretty n else pretty n.

Definition format_duration (seconds : Z) : string :=
  if bool_decide (seconds = 0%Z) then "0:00"
  else
    let hours := (seconds `div` 3600)%Z in
    let minutes := ((seconds `mod` 3600) `div` 60)%Z in
    let secs := (seconds `mod` 60)%Z in
    if bool_decide (0 < hours)%Z
    then pretty hours ++ ":" ++ fmt_02d minutes ++ ":" ++ fmt_02d secs
    else pretty minutes ++ ":" ++ fmt_02d secs.





(** ** A service that never finishes

    Every request is answered with the same record, still downloading. *)
Module Stuck.

Definition session_request (method url : string) (kw : kwargs)
    (served : nat) : http_outcome * nat :=
  (Scripted.ok (Scripted.downloading 50), S served).

Definition wait (fuel : nat) (s : state nat unit)
    : option (result pyval * state nat unit) :=
  wait_for_completion nat unit session_request Settled.time_sleep fuel Scripted.api
    "job-1" (Some Settled.sink) tt s.

End Stuck.

(** ** The whole workflow on a scripted world *)
Module ScriptedWorkflow.

Definition py_str (v : pyval) : string :=
  match v with VStr s => s | _ => "?" end.

(** The request [download_with_progress] starts with in [run]. *)
Definition POST : event unit :=
  EvRequest "POST" "http://localhost:3001/api/download"
    (JsonBody (Payload.download_video_data
                 (VStr "https://www.youtube.com/watch?v=dQw4w9WgXcQ")
                 (VStr "audio-only") (VStr "best") VNone VNone VNone VNone VNone)).

Definition run (fuel : nat) (http : list http_outcome) (sinks : list (result pyval))
    : option (result pyval * state Scripted.script unit) :=
  download_with_progress Scripted.script unit Scripted.session_request
    Scripted.time_sleep py_str tt fuel Scripted.api
    (VStr "https://www.youtube.com/watch?v=dQw4w9WgXcQ") (VStr "audio-only") (VStr "best")
    VNone VNone VNone VNone VNone (Some Scripted.sink) (Scripted.init http [] sinks).

End ScriptedWorkflow.

(** * Properties *)

#[local] Set Warnings "-notation-for-abbreviation".

Section PollerProperties.
Context {W duration : Type}.
Variable session_request : string → string → kwargs → W → http_outcome * W.
Variable time_sleep : duration → W → result unit * W.

Notation St w tr := ({| world := w; trace := tr |} : state W duration).
Notation get_status := (get_download_status W duration session_request).
Notation cancel := (cancel_download W duration session_request).
Notation poll := (poll_once W duration session_request time_sleep).
Notation body := (loop_body W duration session_request time_sleep).
Notation wait := (wait_for_completion W duration session_request time_sleep).
Notation polls_from := (polls W duration session_request time_sleep).

Implicit Types (self : LemolexAPI) (id : string) (op : option (callback W))
  (t : duration) (w : W) (tr : list (event duration)) (d response : pyval).

Lemma sample_of_inv response d :
  sample_of response = Some d →
  ∃ m success, response = VDict m ∧ m !! "success" = Some success
               ∧ truthy success = true ∧ m !! "data" = Some d.
Proof.
  destruct response as [| | | | |m]; try discriminate. cbn.
  destruct (m !! "success") as [success|] eqn:Hs; try discriminate.
  destruct (truthy success) eqn:Ht; try discriminate. eauto 10.
Qed.

Lemma transport_error_not_interrupt str_e r :
  is_KeyboardInterrupt (transport_error str_e r) = false.
Proof.
  destruct r as [[code txt [ed|]]|]; cbn; try reflexivity.
  destruct ed; reflexivity.
Qed.

Lemma get_status_eq self id w tr :
  get_status self id (St w tr)
  = let '(o, w') := session_request "GET" (status_url self id) NoKwargs w in
    let s' := St w' (tr ++ [ev_status self id]) in
    match o with
    | HttpOk b => (Ret b, s')
    | HttpRequestException str_e r => (Raise (transport_error str_e r), s')
    | HttpRaises e => (Raise e, s')
    end.
Proof.
  unfold get_download_status, _make_request, call, status_url, ev_status. cbn [world trace].
  destruct (session_request _ _ _ _) as [o w']. destruct o as [b|str_e [r|]|e]; try reflexivity.
  unfold transport_error. destruct (json_body r) as [ed|]; try reflexivity.
  unfold mbind, M_bind, lift, raise. destruct (py_get ed "error" (VStr str_e)); reflexivity.
Qed.

Lemma cancel_swallowed self id w tr o w' :
  session_request "DELETE" (status_url self id) NoKwargs w = (o, w') →
  swallow W duration (cancel self id) (St w tr) = (Ret tt, St w' (tr ++ [ev_cancel self id])).
Proof.
  intros H. unfold swallow, cancel_download, _make_request, call, status_url, ev_cancel in *.
  cbn [world trace]. rewrite H.
  destruct o as [b|str_e [r|]|e]; try reflexivity.
  destruct (json_body r) as [ed|]; try reflexivity.
  unfold mbind, M_bind, lift, raise. destruct (py_get ed "error" (VStr str_e)); reflexivity.
Qed.

Lemma body_eq self id op t w tr :
  body self id op t (St w tr)
  = match poll self id op t (St w tr) with
    | (Raise e, s') =>
        if is_KeyboardInterrupt e then
          (Raise e, St (session_request "DELETE" (status_url self id) NoKwargs (world s')).2
                       (trace s' ++ [ev_cancel self id]))
        else (Raise e, s')
    | r => r
    end.
Proof.
  unfold loop_body, try_except.
  destruct (poll self id op t (St w tr)) as [[c|e] [w' tr']]; try reflexivity.
  destruct (is_KeyboardInterrupt e); try reflexivity.
  unfold mbind, M_bind.
  destruct (session_request "DELETE" (status_url self id) NoKwargs w') as [o w''] eqn:Hc.
  rewrite (cancel_swallowed _ _ _ _ _ _ Hc). cbn [world trace]. rewrite Hc. reflexivity.
Qed.

Lemma poll_sample self id op t w tr response w1 d w2 :
  session_request "GET" (status_url self id) NoKwargs w = (HttpOk response, w1) →
  sample_of response = Some d →
  sink_returns op d w1 w2 →
  poll self id op t (St w tr)
  = if is_pending d then
      (match (time_sleep t w2).1 with Ret _ => Ret Continue | Raise e => Raise e end,
       St (time_sleep t w2).2 (tr ++ ev_status self id :: ev_sink op d ++ [EvSleep t]))
    else (ctl_of (terminal_outcome d), St w2 (tr ++ ev_status self id :: ev_sink op d)).
Proof.
  intros Hq (m & success & -> & Hsucc & Htruthy & Hdata)%sample_of_inv Hsink.
  unfold poll_once, mbind, M_bind. rewrite get_status_eq, Hq. cbn [lift py_get py_index].
  rewrite Hsucc, Htruthy, Hdata. cbn [negb].
  assert (∃ r, (match op with
                | Some f => call W duration (EvSink d) (f d)
                | None => mret VNone
                end) (St w1 (tr ++ [ev_status self id]))
               = (Ret r, St w2 (tr ++ ev_status self id :: ev_sink op d))) as [r ->].
  { destruct op as [f|]; cbn in Hsink |- *.
    - destruct Hsink as [r Hr]. exists r. unfold call. cbn [world trace].
      by rewrite Hr, <- app_assoc.
    - subst w2. exists VNone. reflexivity. }
  unfold is_pending, terminal_outcome.
  destruct (py_index d "status") as [status|e] eqn:Hst; [|reflexivity].
  destruct (py_eq_str status "completed"); [reflexivity|].
  destruct (py_eq_str status "failed").
  { cbn [negb andb]. destruct d; try discriminate. reflexivity. }
  destruct (py_eq_str status "cancelled"); [reflexivity|]. cbn [negb andb].
  unfold sleep, call. cbn [world trace].
  destruct (time_sleep t w2) as [[[]|e] w3]; cbn [fst snd];
    rewrite <- app_assoc; reflexivity.
Qed.

Lemma terminal_outcome_not_interrupt d e :
  terminal_outcome d = Raise e → is_KeyboardInterrupt e = false.
Proof.
  unfold terminal_outcome, py_index, py_get.
  destruct d as [| | | | |m]; try (intros [= <-]; reflexivity).
  destruct (m !! "status") as [status|]; [|intros [= <-]; reflexivity].
  repeat case_match; intros [= <-]; reflexivity.
Qed.

Lemma wait_pass self id op t w tr response w1 d w2 w3 n :
  session_request "GET" (status_url self id) NoKwargs w = (HttpOk response, w1) →
  sample_of response = Some d →
  is_pending d = true →
  sink_returns op d w1 w2 →
  time_sleep t w2 = (Ret tt, w3) →
  wait (S n) self id op t (St w tr)
  = wait n self id op t (St w3 (tr ++ ev_status self id :: ev_sink op d ++ [EvSleep t])).
Proof.
  intros Hq Hs Hp Hsink Hsleep. cbn [wait_for_completion].
  rewrite body_eq, (poll_sample _ _ _ _ _ _ _ _ _ _ Hq Hs Hsink), Hp, Hsleep.
  reflexivity.
Qed.

Lemma wait_polls self id op t w ds w' :
  polls_from self id op t w ds w' →
  ∀ n tr, wait (length ds + n) self id op t (St w tr)
          = wait n self id op t (St w' (tr ++ pending_events self id op t ds)).
Proof.
  induction 1 as [w|w response w1 d w2 w3 ds w' Hq Hs Hp Hsink Hsleep _ IH]; intros n tr.
  - cbn. by rewrite app_nil_r.
  - cbn [length Nat.add]. rewrite (wait_pass _ _ _ _ _ _ _ _ _ _ _ _ Hq Hs Hp Hsink Hsleep).
    rewrite IH. unfold pending_events. cbn [mbind list_bind].
    by rewrite <- !app_assoc.
Qed.

Lemma wait_terminal self id op t w tr response w1 d w2 n :
  session_request "GET" (status_url self id) NoKwargs w = (HttpOk response, w1) →
  sample_of response = Some d →
  is_pending d = false →
  sink_returns op d w1 w2 →
  wait (S n) self id op t (St w tr)
  = Some (terminal_outcome d, St w2 (tr ++ ev_status self id :: ev_sink op d)).
Proof.
  intros Hq Hs Hp Hsink. cbn [wait_for_completion].
  rewrite body_eq, (poll_sample _ _ _ _ _ _ _ _ _ _ Hq Hs Hsink), Hp.
  destruct (terminal_outcome d) as [d'|e] eqn:Ho; cbn [ctl_of]; [reflexivity|].
  by rewrite (terminal_outcome_not_interrupt _ _ Ho).
Qed.

Lemma has_status_terminal d status :
  has_status d status →
  status = "completed" ∨ status = "failed" ∨ status = "cancelled" →
  is_pending d = false.
Proof.
  unfold has_status, is_pending. intros -> [->|[->| ->]]; reflexivity.
Qed.

Lemma sink_args_pending_events self id (f : callback W) t ds :
  sink_args (pending_events self id (Some f) t ds) = ds.
Proof. induction ds as [|d ds IH]; [reflexivity|]. cbn. by f_equal. Qed.

Lemma requests_pending_events self id op t ds :
  requests (pending_events self id op t ds)
  = replicate (length ds) ("GET", status_url self id).
Proof.
  induction ds as [|d ds IH]; [reflexivity|].
  change (pending_events self id op t (d :: ds))
    with ((ev_status self id :: ev_sink op d ++ [EvSleep t])
            ++ pending_events self id op t ds)%list.
  unfold requests in *. rewrite omap_app, IH.
  destruct op; reflexivity.
Qed.
Lemma poll_query_raises self id op t w tr e s1 :
  get_status self id (St w tr) = (Raise e, s1) →
  poll self id op t (St w tr) = (Raise e, s1).
Proof. intros H. unfold poll_once, mbind, M_bind. by rewrite H. Qed.

Lemma poll_sink_raises self id (f : callback W) t w tr response w1 d e w2 :
  session_request "GET" (status_url self id) NoKwargs w = (HttpOk response, w1) →
  sample_of response = Some d →
  f d w1 = (Raise e, w2) →
  poll self id (Some f) t (St w tr)
  = (Raise e, St w2 (tr ++ [ev_status self id; EvSink d])).
Proof.
  intros Hq (m & success & -> & Hsucc & Htruthy & Hdata)%sample_of_inv Hf.
  unfold poll_once, mbind, M_bind. rewrite get_status_eq, Hq. cbn [lift py_get py_index].
  rewrite Hsucc, Htruthy, Hdata. cbn [negb]. unfold call. cbn [world trace].
  by rewrite Hf, <- app_assoc.
Qed.

(** Any number of pending passes followed by a record that ends the loop. *)
Lemma wait_polls_terminal self id op t w tr ds w' response w1 d w2 fuel :
  polls_from self id op t w ds w' →
  session_request "GET" (status_url self id) NoKwargs w' = (HttpOk response, w1) →
  sample_of response = Some d →
  is_pending d = false →
  sink_returns op d w1 w2 →
  wait (length ds + S fuel) self id op t (St w tr)
  = Some (terminal_outcome d,
          St w2 (tr ++ pending_events self id op t ds
                    ++ ev_status self id :: ev_sink op d)).
Proof.
  intros Hp Hq Hs Hd Hsink. rewrite (wait_polls _ _ _ _ _ _ _ Hp).
  rewrite (wait_terminal _ _ _ _ _ _ _ _ _ _ _ Hq Hs Hd Hsink).
  by rewrite <- app_assoc.
Qed.

(** C1: over the samples starting, downloading (30%), downloading (70%),
    completed, with a callback that returns normally, the callback is called
    exactly four times, once per sample and in that order, the last call
    being for the completed record, and the call returns that record. *)
Theorem wait_for_completion_four_samples
    self id (f : callback W) t w tr d1 d2 d3 d4 w3 response w4 r w5 fuel :
  has_status d1 "starting" →
  has_status d2 "downloading" →
  has_status d3 "downloading" →
  has_status d4 "completed" →
  polls_from self id (Some f) t w [d1; d2; d3] w3 →
  session_request "GET" (status_url self id) NoKwargs w3 = (HttpOk response, w4) →
  sample_of response = Some d4 →
  f d4 w4 = (Ret r, w5) →
  let new := [ev_status self id; EvSink d1; EvSleep t;
              ev_status self id; EvSink d2; EvSleep t;
              ev_status self id; EvSink d3; EvSleep t;
              ev_status self id; EvSink d4] in
  wait (4 + fuel) self id (Some f) t (St w tr) = Some (Ret d4, St w5 (tr ++ new))
  ∧ sink_args new = [d1; d2; d3; d4]
  ∧ length (sink_args new) = 4.
Proof.
  intros _ _ _ H4 Hp Hq Hs Hf new. split; [|split; reflexivity].
  assert (Hd : is_pending d4 = false) by (eapply has_status_terminal; eauto).
  assert (Hsink : sink_returns (Some f) d4 w4 w5) by (exists r; exact Hf).
  pose proof (wait_polls_terminal _ _ _ _ _ tr _ _ _ _ _ _ fuel Hp Hq Hs Hd Hsink) as Hw.
  cbn [length Nat.add] in Hw. cbn [Nat.add]. rewrite Hw.
  unfold terminal_outcome. rewrite H4. reflexivity.
Qed.

(** C2: when a sampled record has status failed, the call fails with
    JobFailed carrying the record's error entry, or the fallback message
    when the record has none; the callback was called once for that record,
    after it had been called once for each earlier record, and the status
    query for that record is the last call made. *)
Theorem wait_for_completion_failed
    self id (f : callback W) t w tr ds w' response w1 m r w2 fuel :
  polls_from self id (Some f) t w ds w' →
  session_request "GET" (status_url self id) NoKwargs w' = (HttpOk response, w1) →
  sample_of response = Some (VDict m) →
  m !! "status" = Some (VStr "failed") →
  f (VDict m) w1 = (Ret r, w2) →
  let message := default (VStr "Download failed") (m !! "error") in
  let new := (pending_events self id (Some f) t ds
                ++ [ev_status self id; EvSink (VDict m)])%list in
  wait (length ds + S fuel) self id (Some f) t (St w tr)
    = Some (Raise (JobFailed message), St w2 (tr ++ new))
  ∧ sink_args new = (ds ++ [VDict m])%list
  ∧ requests new = replicate (S (length ds)) ("GET", status_url self id).
Proof.
  intros Hp Hq Hs Hst Hf message new.
  assert (Hd : is_pending (VDict m) = false).
  { apply (has_status_terminal _ "failed"); [|by auto].
    unfold has_status, py_index. by rewrite Hst. }
  assert (Hsink : sink_returns (Some f) (VDict m) w1 w2) by (exists r; exact Hf).
  split; [|split].
  - rewrite (wait_polls_terminal _ _ _ _ _ tr _ _ _ _ _ _ fuel Hp Hq Hs Hd Hsink).
    unfold terminal_outcome, py_index, py_get. rewrite Hst. cbn.
    subst message new. unfold JobFailed, default. by destruct (m !! "error").
  - subst new. unfold sink_args. rewrite omap_app.
    fold (sink_args (pending_events self id (Some f) t ds)).
    by rewrite sink_args_pending_events.
  - subst new. unfold requests. rewrite omap_app.
    fold (requests (pending_events self id (Some f) t ds)).
    rewrite requests_pending_events. cbn.
    change (("GET", status_url self id) :: replicate (length ds) ("GET", status_url self id))
      with (replicate (S (length ds)) ("GET", status_url self id)).
    by rewrite replicate_S_end.
Qed.

(** C3: when the first status query fails with a transport error, the call
    fails at once with the very exception the query raised; one request was
    made and no other call, so the query is not retried and the callback is
    never called. *)
Theorem wait_for_completion_transport_error
    self id op t w tr str_e r w1 fuel :
  session_request "GET" (status_url self id) NoKwargs w
    = (HttpRequestException str_e r, w1) →
  let new : list (event duration) := [ev_status self id] in
  get_status self id (St w tr) = (Raise (transport_error str_e r), St w1 (tr ++ new))
  ∧ wait (S fuel) self id op t (St w tr)
    = Some (Raise (transport_error str_e r), St w1 (tr ++ new))
  ∧ sink_args new = []
  ∧ requests new = [("GET", status_url self id)].
Proof.
  intros Hq new. subst new.
  assert (Hg : get_status self id (St w tr)
               = (Raise (transport_error str_e r), St w1 (tr ++ [ev_status self id])))
    by (by rewrite get_status_eq, Hq).
  split; [exact Hg|]. split; [|split; reflexivity].
  cbn [wait_for_completion]. rewrite body_eq, (poll_query_raises _ _ _ _ _ _ _ _ Hg).
  by rewrite transport_error_not_interrupt.
Qed.

(** C4: when the sleep after a pending sample is interrupted, one cancel
    request for the same download id is made, whatever becomes of that
    request the call then raises the interrupt it caught, and nothing else
    is called. *)
Theorem wait_for_completion_interrupt_during_sleep
    self id op t w tr ds w' response w1 d w2 w3 o w4 fuel :
  polls_from self id op t w ds w' →
  session_request "GET" (status_url self id) NoKwargs w' = (HttpOk response, w1) →
  sample_of response = Some d →
  is_pending d = true →
  sink_returns op d w1 w2 →
  time_sleep t w2 = (Raise KeyboardInterrupt, w3) →
  session_request "DELETE" (status_url self id) NoKwargs w3 = (o, w4) →
  let new := (pending_events self id op t (ds ++ [d]) ++ [ev_cancel self id])%list in
  wait (length ds + S fuel) self id op t (St w tr)
    = Some (Raise KeyboardInterrupt, St w4 (tr ++ new))
  ∧ requests new = (replicate (S (length ds)) ("GET", status_url self id)
                      ++ [("DELETE", status_url self id)])%list.
Proof.
  intros Hp Hq Hs Hd Hsink Hsleep Hc new. split.
  - rewrite (wait_polls _ _ _ _ _ _ _ Hp). cbn [wait_for_completion].
    rewrite body_eq, (poll_sample _ _ _ _ _ _ _ _ _ _ Hq Hs Hsink), Hd, Hsleep.
    cbn [fst snd is_KeyboardInterrupt world trace]. rewrite Hc. cbn [snd].
    subst new. unfold pending_events. rewrite bind_app. cbn [mbind list_bind].
    by rewrite app_nil_r, <- !app_assoc.
  - subst new. unfold requests. rewrite omap_app.
    fold (requests (pending_events self id op t (ds ++ [d]))).
    rewrite requests_pending_events, length_app. cbn [length].
    by rewrite Nat.add_1_r.
Qed.

(** C5 (as the code has it): the handler that cancels and re-raises covers
    the whole loop body.  A [KeyboardInterrupt] that arrives during the
    status query, during the callback or during the sleep leads in each case
    to one cancel request followed by the interrupt being raised to the
    caller. *)
Theorem interrupt_anywhere_in_loop_body_cancels
    self id op t w tr evs w1 fuel :
  interrupted W duration session_request time_sleep self id op t w evs w1 →
  wait (S fuel) self id op t (St w tr)
  = Some (Raise KeyboardInterrupt,
          St (session_request "DELETE" (status_url self id) NoKwargs w1).2
             (tr ++ evs ++ [ev_cancel self id])).
Proof.
  intros Hi. cbn [wait_for_completion]. rewrite body_eq.
  destruct Hi as [w w1 Hq|w response w1 d f w2 Hq Hs -> Hf
                  |w response w1 d w2 w3 Hq Hs Hd Hsink Hsleep].
  - erewrite poll_query_raises by (by rewrite get_status_eq, Hq).
    cbn [is_KeyboardInterrupt world trace]. by rewrite <- app_assoc.
  - rewrite (poll_sink_raises _ _ _ _ _ _ _ _ _ _ _ Hq Hs Hf).
    cbn [is_KeyboardInterrupt world trace]. by rewrite <- app_assoc.
  - rewrite (poll_sample _ _ _ _ _ _ _ _ _ _ Hq Hs Hsink), Hd, Hsleep.
    cbn [fst snd is_KeyboardInterrupt world trace]. by rewrite <- !app_assoc.
Qed.

(** C6: when a sampled record has status cancelled, the call fails with
    JobCancelled; the record's other entries, its error entry among them,
    play no part: the outcome is the same for every error entry and for
    none. *)
Theorem wait_for_completion_cancelled
    self id op t w tr ds w' response w1 m w2 fuel :
  polls_from self id op t w ds w' →
  session_request "GET" (status_url self id) NoKwargs w' = (HttpOk response, w1) →
  sample_of response = Some (VDict m) →
  m !! "status" = Some (VStr "cancelled") →
  sink_returns op (VDict m) w1 w2 →
  wait (length ds + S fuel) self id op t (St w tr)
    = Some (Raise JobCancelled,
            St w2 (tr ++ pending_events self id op t ds
                      ++ ev_status self id :: ev_sink op (VDict m)))
  ∧ (∀ error, terminal_outcome (VDict (<["error" := error]> m)) = Raise JobCancelled)
  ∧ terminal_outcome (VDict (delete "error" m)) = Raise JobCancelled.
Proof.
  intros Hp Hq Hs Hst Hsink.
  assert (Ho : ∀ m' : gmap string pyval, m' !! "status" = Some (VStr "cancelled") →
               terminal_outcome (VDict m') = Raise JobCancelled).
  { intros m' H. unfold terminal_outcome, py_index. by rewrite H. }
  assert (Hd : is_pending (VDict m) = false).
  { apply (has_status_terminal _ "cancelled"); [|by auto].
    unfold has_status, py_index. by rewrite Hst. }
  split; [|split].
  - rewrite (wait_polls_terminal _ _ _ _ _ tr _ _ _ _ _ _ fuel Hp Hq Hs Hd Hsink).
    by rewrite (Ho m Hst).
  - intros error. apply Ho. by rewrite lookup_insert_ne.
  - apply Ho. by rewrite lookup_delete_ne.
Qed.

(** C7: when the callback raises on some sample, the call ends with that
    same exception; after the callback no sleep is taken and no status
    query is made.  For every exception but [KeyboardInterrupt] nothing at
    all follows the callback; for [KeyboardInterrupt] the one cancel request
    of the interrupt handler follows. *)
Theorem wait_for_completion_sink_raises
    self id (f : callback W) t w tr ds w' response w1 d e w2 fuel :
  polls_from self id (Some f) t w ds w' →
  session_request "GET" (status_url self id) NoKwargs w' = (HttpOk response, w1) →
  sample_of response = Some d →
  f d w1 = (Raise e, w2) →
  let observed := (pending_events self id (Some f) t ds
                     ++ [ev_status self id; EvSink d])%list in
  let after : list (event duration) :=
    if is_KeyboardInterrupt e then [ev_cancel self id] else [] in
  let w_end :=
    if is_KeyboardInterrupt e
    then (session_request "DELETE" (status_url self id) NoKwargs w2).2 else w2 in
  wait (length ds + S fuel) self id (Some f) t (St w tr)
    = Some (Raise e, St w_end (tr ++ observed ++ after))
  ∧ sleeps after = []
  ∧ Forall (λ r, r.1 ≠ "GET") (requests after).
Proof.
  intros Hp Hq Hs Hf observed after w_end. split; [|split].
  - rewrite (wait_polls _ _ _ _ _ _ _ Hp). cbn [wait_for_completion].
    rewrite body_eq, (poll_sink_raises _ _ _ _ _ _ _ _ _ _ _ Hq Hs Hf).
    subst observed after w_end. cbn [world trace].
    destruct (is_KeyboardInterrupt e); rewrite <- ?app_assoc; [reflexivity|].
    by rewrite app_nil_r.
  - subst after. by destruct (is_KeyboardInterrupt e).
  - subst after. destruct (is_KeyboardInterrupt e); repeat constructor. discriminate.
Qed.

(** C8: for a download whose status query answers with the same terminal
    record in every world, and a callback that returns normally on it (or
    no callback), every call ends the same way, whatever the world it
    starts in: it returns the record when completed and raises the same
    exception when failed or cancelled.  In particular a second call made
    after the first ends like the first.  Each call makes one status
    request and, when there is a callback, one call of it: no cancel
    request and no other request is sent. *)
Theorem wait_for_completion_idempotent
    self id op t response d fuel1 fuel2 s :
  (∀ w, ∃ w', session_request "GET" (status_url self id) NoKwargs w
              = (HttpOk response, w')) →
  sample_of response = Some d →
  has_status d "completed" ∨ has_status d "failed" ∨ has_status d "cancelled" →
  (∀ w, ∃ w', sink_returns op d w w') →
  let new : list (event duration) := ev_status self id :: ev_sink op d in
  ∃ s1 s2,
    wait (S fuel1) self id op t s = Some (terminal_outcome d, s1)
    ∧ wait (S fuel2) self id op t s1 = Some (terminal_outcome d, s2)
    ∧ trace s1 = (trace s ++ new)%list
    ∧ trace s2 = (trace s1 ++ new)%list
    ∧ requests new = [("GET", status_url self id)].
Proof.
  intros Hq Hs Hst Hsink new. subst new.
  assert (Hd : is_pending d = false).
  { destruct Hst as [H|[H|H]]; eapply has_status_terminal; eauto. }
  assert (Hcall : ∀ fuel s0, ∃ s',
             wait (S fuel) self id op t s0 = Some (terminal_outcome d, s')
             ∧ trace s' = (trace s0 ++ ev_status self id :: ev_sink op d)%list).
  { intros fuel [w0 tr0]. destruct (Hq w0) as [w1 Hq1]. destruct (Hsink w1) as [w2 Hs2].
    eexists. split; [exact (wait_terminal _ _ _ _ _ _ _ _ _ _ _ Hq1 Hs Hd Hs2)|reflexivity]. }
  destruct (Hcall fuel1 s) as (s1 & H1 & Ht1). destruct (Hcall fuel2 s1) as (s2 & H2 & Ht2).
  exists s1, s2. repeat split; try assumption. by destruct op.
Qed.

End PollerProperties.

(** ** The request payloads *)

Section PayloadProperties.
Import Payload.

#[local] Ltac payload_cases :=
  unfold get_video_info_data, get_video_info_pairs,
         download_video_data, download_video_pairs, opt_pair, entry;
  repeat match goal with |- context [truthy ?v] => destruct (truthy v) eqn:? end;
  cbn [app list_to_map foldr fst snd uncurry fmap list_fmap].

Lemma get_video_info_data_pairs (url cookies cookies_from_browser user_agent : pyval) :
  get_video_info_data url cookies cookies_from_browser user_agent
  = list_to_map (get_video_info_pairs url cookies cookies_from_browser user_agent).
Proof. payload_cases; apply map_eq; intros k; by simplify_map_eq. Qed.

Lemma download_video_data_pairs
    (url format quality output_path filename
     cookies cookies_from_browser user_agent : pyval) :
  download_video_data url format quality output_path filename
    cookies cookies_from_browser user_agent
  = list_to_map (download_video_pairs url format quality output_path filename
                   cookies cookies_from_browser user_agent).
Proof. payload_cases; apply map_eq; intros k; by simplify_map_eq. Qed.

Lemma get_video_info_pairs_NoDup (url cookies cookies_from_browser user_agent : pyval) :
  NoDup (get_video_info_pairs url cookies cookies_from_browser user_agent).*1.
Proof. payload_cases; compute_done. Qed.

Lemma download_video_pairs_NoDup
    (url format quality output_path filename
     cookies cookies_from_browser user_agent : pyval) :
  NoDup (download_video_pairs url format quality output_path filename
           cookies cookies_from_browser user_agent).*1.
Proof. payload_cases; compute_done. Qed.

Lemma truthy_present (v : pyval) : truthy v = true → is_present v = true.
Proof. by destruct v. Qed.

(** C9 (as the code has it): both payloads hold the mandatory fields, and
    for each optional argument its key is in the payload, bound to the
    argument, exactly when the argument is truthy; an argument that is
    [None] leaves no key, and so does one that is empty.  No other key is
    present, and the payload is the same mapping in whatever order its
    pairs are inserted. *)
Theorem payload_key_iff_truthy
    (url format quality output_path filename
     cookies cookies_from_browser user_agent : pyval)
    (l1 l2 : list (string * pyval)) :
  l1 ≡ₚ get_video_info_pairs url cookies cookies_from_browser user_agent →
  l2 ≡ₚ download_video_pairs url format quality output_path filename
          cookies cookies_from_browser user_agent →
  let info := get_video_info_data url cookies cookies_from_browser user_agent in
  let dl := download_video_data url format quality output_path filename
              cookies cookies_from_browser user_agent in
  (info !! "url" = Some url
   ∧ info !! "cookies" = entry cookies
   ∧ info !! "cookiesFromBrowser" = entry cookies_from_browser
   ∧ info !! "userAgent" = entry user_agent
   ∧ (∀ k, k ∉ ["url"; "cookies"; "cookiesFromBrowser"; "userAgent"] → info !! k = None)
   ∧ list_to_map l1 = info)
  ∧ (dl !! "url" = Some url
     ∧ dl !! "format" = Some format
     ∧ dl !! "quality" = Some quality
     ∧ dl !! "outputPath" = entry output_path
     ∧ dl !! "filename" = entry filename
     ∧ dl !! "cookies" = entry cookies
     ∧ dl !! "cookiesFromBrowser" = entry cookies_from_browser
     ∧ dl !! "userAgent" = entry user_agent
     ∧ (∀ k, k ∉ ["url"; "format"; "quality"; "outputPath"; "filename";
                  "cookies"; "cookiesFromBrowser"; "userAgent"] → dl !! k = None)
     ∧ list_to_map l2 = dl)
  ∧ (∀ v, is_present v = false → entry v = None)
  ∧ (∀ v, entry v = Some v ↔ truthy v = true).
Proof.
  intros Hl1 Hl2 info dl. subst info dl. split; [|split; [|split]].
  - repeat split; try (payload_cases; reflexivity).
    + intros k Hk. rewrite !not_elem_of_cons in Hk. destruct_and!.
      payload_cases; by simplify_map_eq.
    + rewrite get_video_info_data_pairs. symmetry.
      apply list_to_map_proper; [apply get_video_info_pairs_NoDup|done].
  - repeat split; try (payload_cases; reflexivity).
    + intros k Hk. rewrite !not_elem_of_cons in Hk. destruct_and!.
      payload_cases; by simplify_map_eq.
    + rewrite download_video_data_pairs. symmetry.
      apply list_to_map_proper; [apply download_video_pairs_NoDup|done].
  - by intros [].
  - intros v. unfold entry. destruct (truthy v); split; done.
Qed.

(** C10: an optional argument that is falsy (the empty string, [None],
    [False], zero, an empty list or dictionary) gives the same payload as
    the argument left out, and its key is not in the payload; this holds for
    each optional argument of [get_video_info] and of [download_video]. *)
Theorem falsy_option_same_as_absent (v : pyval) :
  truthy v = false →
  (∀ url b u,
     get_video_info_data url v b u = get_video_info_data url VNone b u
     ∧ get_video_info_data url v b u !! "cookies" = None)
  ∧ (∀ url c u,
       get_video_info_data url c v u = get_video_info_data url c VNone u
       ∧ get_video_info_data url c v u !! "cookiesFromBrowser" = None)
  ∧ (∀ url c b,
       get_video_info_data url c b v = get_video_info_data url c b VNone
       ∧ get_video_info_data url c b v !! "userAgent" = None)
  ∧ (∀ url fmt q n c b u,
       download_video_data url fmt q v n c b u = download_video_data url fmt q VNone n c b u
       ∧ download_video_data url fmt q v n c b u !! "outputPath" = None)
  ∧ (∀ url fmt q p c b u,
       download_video_data url fmt q p v c b u = download_video_data url fmt q p VNone c b u
       ∧ download_video_data url fmt q p v c b u !! "filename" = None)
  ∧ (∀ url fmt q p n b u,
       download_video_data url fmt q p n v b u = download_video_data url fmt q p n VNone b u
       ∧ download_video_data url fmt q p n v b u !! "cookies" = None)
  ∧ (∀ url fmt q p n c u,
       download_video_data url fmt q p n c v u = download_video_data url fmt q p n c VNone u
       ∧ download_video_data url fmt q p n c v u !! "cookiesFromBrowser" = None)
  ∧ (∀ url fmt q p n c b,
       download_video_data url fmt q p n c b v = download_video_data url fmt q p n c b VNone
       ∧ download_video_data url fmt q p n c b v !! "userAgent" = None).
Proof.
  intros Hv.
  repeat split; intros;
    unfold get_video_info_data, download_video_data; rewrite ?Hv; cbn [truthy];
    try reflexivity;
    repeat match goal with |- context [truthy ?x] => destruct (truthy x) end;
    by simplify_map_eq.
Qed.

End PayloadProperties.

(** C9, as stated, fails: an empty [cookies] string is an argument that is
    present (it is not [None]), yet [get_video_info] inserts no "cookies"
    key; the payload is the one of a call without the argument. *)
Lemma empty_cookies_present_but_not_inserted :
  let url := VStr "https://www.youtube.com/watch?v=dQw4w9WgXcQ" in
  let data := Payload.get_video_info_data url (VStr EmptyString) VNone VNone in
  is_present (VStr EmptyString) = true
  ∧ data !! "cookies" = None
  ∧ data = {[ "url" := url ]}.
Proof. repeat split. Qed.

Lemma payload_key_iff_truthy_witness :
  let url := VStr "https://www.youtube.com/watch?v=dQw4w9WgXcQ" in
  let info := Payload.get_video_info_data url VNone (VStr "firefox") (VStr EmptyString) in
  let dl := Payload.download_video_data url (VStr "audio-only") (VStr "best")
              VNone (VStr EmptyString) VNone (VStr "firefox") (VStr EmptyString) in
  (info !! "cookiesFromBrowser" = Some (VStr "firefox")
   ∧ info !! "userAgent" = None
   ∧ list_to_map [("cookiesFromBrowser", VStr "firefox"); ("url", url)] = info)
  ∧ (dl !! "filename" = None
     ∧ list_to_map [("cookiesFromBrowser", VStr "firefox"); ("quality", VStr "best");
                    ("format", VStr "audio-only"); ("url", url)] = dl).
Proof.
  intros url info dl.
  destruct (payload_key_iff_truthy url (VStr "audio-only") (VStr "best")
              VNone (VStr EmptyString) VNone (VStr "firefox") (VStr EmptyString)
              [("cookiesFromBrowser", VStr "firefox"); ("url", url)]
              [("cookiesFromBrowser", VStr "firefox"); ("quality", VStr "best");
               ("format", VStr "audio-only"); ("url", url)])
    as ((_ & _ & Hb & Hu & _ & Hl1) & (_ & _ & _ & _ & Hf & _ & _ & _ & _ & Hl2) & _).
  - apply Permutation_swap.
  - cbn. apply (Permutation_rev [_; _; _; _]).
  - repeat split; assumption.
Defined.

Lemma falsy_option_same_as_absent_witness :
  Payload.get_video_info_data (VStr "https://youtu.be/x") (VStr EmptyString) VNone VNone
  = Payload.get_video_info_data (VStr "https://youtu.be/x") VNone VNone VNone
  ∧ Payload.download_video_data (VStr "https://youtu.be/x") (VStr "video+audio")
      (VStr "best") VNone (VStr EmptyString) VNone VNone VNone !! "filename" = None.
Proof.
  destruct (falsy_option_same_as_absent (VStr EmptyString) eq_refl)
    as (H1 & _ & _ & _ & H5 & _).
  split; [apply (H1 (VStr "https://youtu.be/x") VNone VNone)|].
  apply (H5 (VStr "https://youtu.be/x") (VStr "video+audio") (VStr "best")
           VNone VNone VNone VNone).
Defined.

(** ** The poller on scripted worlds *)

Section ScriptedRuns.
Import Scripted.

#[local] Ltac run_script :=
  repeat match goal with
         | |- polls _ _ _ _ _ _ _ _ _ [] _ => apply polls_nil
         | |- polls _ _ _ _ _ _ _ _ _ (_ :: _) _ => eapply polls_cons
         | |- sink_returns (Some _) _ _ _ => eexists
         | |- sink_returns None _ _ _ => reflexivity
         | |- has_status _ _ => reflexivity
         | |- _ = _ => reflexivity
         end.

Lemma wait_for_completion_four_samples_witness :
  wait 4 true
    (init [ok starting; ok (downloading 30); ok (downloading 70); ok completed] [] [])
  = Some (Ret completed,
          {| world := {| http_script := []; sleep_script := []; sink_script := [] |};
             trace := [GET; EvSink starting; EvSleep tt;
                       GET; EvSink (downloading 30); EvSleep tt;
                       GET; EvSink (downloading 70); EvSleep tt;
                       GET; EvSink completed] |}).
Proof.
  refine (proj1 (wait_for_completion_four_samples session_request time_sleep
                   api "job-1" sink tt _ [] starting (downloading 30) (downloading 70)
                   completed _ _ _ VNone _ 0 _ _ _ _ _ _ _ _)); run_script.
Defined.

Lemma wait_for_completion_failed_witness :
  wait 2 true (init [ok starting; ok failed] [] [])
  = Some (Raise (JobFailed (VStr "disk full")),
          {| world := {| http_script := []; sleep_script := []; sink_script := [] |};
             trace := [GET; EvSink starting; EvSleep tt; GET; EvSink failed] |}).
Proof.
  refine (proj1 (wait_for_completion_failed session_request time_sleep
                   api "job-1" sink tt _ [] [starting] _ _ _
                   (list_to_map [("id", VStr "job-1"); ("status", VStr "failed");
                                 ("error", VStr "disk full")])
                   VNone _ 0 _ _ _ _ _)); run_script.
Defined.

Lemma wait_for_completion_transport_error_witness :
  wait 3 true (init [HttpRequestException "Connection refused" None; ok completed] [] [])
  = Some (Raise (Exception (VStr "Connection refused")),
          {| world := {| http_script := [ok completed]; sleep_script := [];
                         sink_script := [] |};
             trace := [GET] |}).
Proof.
  refine (proj1 (proj2 (wait_for_completion_transport_error session_request time_sleep
                          api "job-1" (Some sink) tt _ [] "Connection refused" None _ 2 _)));
    run_script.
Defined.

Lemma wait_for_completion_interrupt_during_sleep_witness :
  wait 2 true
    (init [ok (downloading 30); HttpRequestException "Connection reset" None]
          [Raise KeyboardInterrupt] [])
  = Some (Raise KeyboardInterrupt,
          {| world := {| http_script := []; sleep_script := []; sink_script := [] |};
             trace := [GET; EvSink (downloading 30); EvSleep tt; DELETE] |}).
Proof.
  refine (proj1 (wait_for_completion_interrupt_during_sleep session_request time_sleep
                   api "job-1" (Some sink) tt _ [] [] _ _ _ (downloading 30) _ _ _ _ 1
                   _ _ _ _ _ _ _)); run_script.
Defined.

(** C5, as stated, fails: an interrupt that arrives during the first status
    query, before any sleep, already triggers the cancel request and is then
    raised to the caller. *)
Lemma interrupt_during_query_cancels :
  wait 1 true (init [HttpRaises KeyboardInterrupt; cancel_ok] [] [])
  = Some (Raise KeyboardInterrupt,
          {| world := {| http_script := []; sleep_script := []; sink_script := [] |};
             trace := [GET; DELETE] |}).
Proof. reflexivity. Qed.

Lemma interrupt_anywhere_in_loop_body_cancels_witness :
  wait 1 true (init [ok starting; cancel_ok] [] [Raise KeyboardInterrupt])
  = Some (Raise KeyboardInterrupt,
          {| world := {| http_script := []; sleep_script := []; sink_script := [] |};
             trace := [GET; EvSink starting; DELETE] |}).
Proof.
  refine (interrupt_anywhere_in_loop_body_cancels session_request time_sleep
            api "job-1" (Some sink) tt _ [] [GET; EvSink starting]
            {| http_script := [cancel_ok]; sleep_script := []; sink_script := [] |}
            0 _).
  eapply interrupted_sink; reflexivity.
Defined.

Lemma wait_for_completion_cancelled_witness :
  wait 1 false (init [ok cancelled] [] [])
  = Some (Raise JobCancelled,
          {| world := {| http_script := []; sleep_script := []; sink_script := [] |};
             trace := [GET] |}).
Proof.
  refine (proj1 (wait_for_completion_cancelled session_request time_sleep
                   api "job-1" None tt _ [] [] _ _ _
                   (list_to_map [("id", VStr "job-1"); ("status", VStr "cancelled");
                                 ("error", VStr "stopped")])
                   _ 0 _ _ _ _ _)); run_script.
Defined.

Lemma wait_for_completion_sink_raises_witness :
  wait 2 true
    (init [ok starting; ok (downloading 30); ok completed] []
          [Ret VNone; Raise (OtherError "ValueError" (VStr "bad record"))])
  = Some (Raise (OtherError "ValueError" (VStr "bad record")),
          {| world := {| http_script := [ok completed]; sleep_script := [];
                         sink_script := [] |};
             trace := [GET; EvSink starting; EvSleep tt;
                       GET; EvSink (downloading 30)] |}).
Proof.
  refine (proj1 (wait_for_completion_sink_raises session_request time_sleep
                   api "job-1" sink tt _ [] [starting] _ _ _ (downloading 30)
                   (OtherError "ValueError" (VStr "bad record")) _ 0 _ _ _ _));
    run_script.
Defined.

Lemma wait_for_completion_idempotent_witness :
  ∃ s1 s2,
    Settled.wait 1 {| world := 0; trace := [] |} = Some (Ret completed, s1)
    ∧ Settled.wait 1 s1 = Some (Ret completed, s2)
    ∧ trace s1 = [GET; EvSink completed]
    ∧ trace s2 = (trace s1 ++ [GET; EvSink completed])%list
    ∧ requests [GET; EvSink completed] = [("GET", url)].
Proof.
  refine (wait_for_completion_idempotent Settled.session_request Settled.time_sleep
            api "job-1" (Some Settled.sink) tt (VDict _) completed 0 0
            {| world := 0; trace := [] |} _ _ _ _).
  - intros w. eexists. reflexivity.
  - reflexivity.
  - left. reflexivity.
  - intros w. eexists. eexists. reflexivity.
Defined.

End ScriptedRuns.

(** ** Every run of the poller *)

Section PollerInvariants.
Context {W duration : Type}.
Variable session_request : string → string → kwargs → W → http_outcome * W.
Variable time_sleep : duration → W → result unit * W.

Notation poll := (poll_once W duration session_request time_sleep).
Notation body := (loop_body W duration session_request time_sleep).
Notation wait := (wait_for_completion W duration session_request time_sleep).

Implicit Types (self : LemolexAPI) (id : string) (op : option (callback W))
  (t : duration) (w : W) (tr : list (event duration)) (d response : pyval)
  (s : state W duration).

Lemma poll_inv self id op t s r s' :
  poll self id op t s = (r, s') →
  match r with
  | Ret Continue =>
      ∃ d, is_pending d = true
           ∧ trace s' = (trace s ++ ev_status self id :: ev_sink op d ++ [EvSleep t])%list
  | Ret (Return d) =>
      has_status d "completed"
      ∧ trace s' = (trace s ++ ev_status self id :: ev_sink op d)%list
  | Raise e =>
      ∃ evs, trace s' = (trace s ++ ev_status self id :: evs)%list ∧ quiet op t evs
  end.
Proof.
  destruct s as [w tr]. unfold poll_once, mbind, M_bind.
  rewrite (get_status_eq session_request).
  destruct (session_request "GET" (status_url self id) NoKwargs w) as [o w1].
  cbn [world trace].
  assert (Hq0 : quiet op t []).
  { unfold quiet. cbn. repeat split; auto with lia. }
  destruct o as [response|str_e rsp|e0]; cbn [lift];
    [|intros [= <- <-]; by exists []..].
  destruct (py_get response "success" VNone) as [success|e0] eqn:Hsucc;
    [|intros [= <- <-]; by exists []].
  destruct (truthy success); cbn [negb].
  2:{ destruct (py_get response "error" (VStr "Unknown error"));
      intros [= <- <-]; by exists []. }
  destruct (py_index response "data") as [d|e0]; [|intros [= <- <-]; by exists []].
  assert (Hsink :
    ∀ (k : pyval → M W duration ctl) r s',
      ((match op with
        | Some f => call W duration (EvSink d) (f d)
        | None => mret VNone
        end) ≫= k) {| world := w1; trace := tr ++ [ev_status self id] |} = (r, s') →
      (∃ e, r = Raise e ∧ op ≠ None
            ∧ trace s' = (tr ++ ev_status self id :: [EvSink d])%list)
      ∨ (∃ v w2, k v {| world := w2;
                        trace := tr ++ ev_status self id :: ev_sink op d |} = (r, s'))).
  { intros k r0 s0. unfold mbind, M_bind. destruct op as [f|].
    - unfold call. cbn [world trace]. destruct (f d w1) as [[v|e0] w2];
        rewrite <- app_assoc.
      + intros H. right. by exists v, w2.
      + intros [= <- <-]. left. by exists e0.
    - cbn. intros H. right. by exists VNone, w1. }
  intros H. apply Hsink in H as [(e & -> & Hop & Htr)|(_ & w2 & H)].
  { exists [EvSink d]. split; [done|]. unfold quiet. cbn.
    repeat split; auto with lia. intros ?. contradiction. }
  clear Hsink. revert H.
  assert (Hq1 : quiet op t (ev_sink op d)).
  { unfold quiet. destruct op; cbn; repeat split; auto with lia. discriminate. }
  destruct (py_index d "status") as [st|e0] eqn:Hst;
    [|intros [= <- <-]; by exists (ev_sink op d)].
  destruct (py_eq_str st "completed") eqn:Hc.
  { intros [= <- <-]. split; [|done]. unfold has_status. rewrite Hst. f_equal.
    destruct st; try discriminate. cbn in Hc. by apply String.eqb_eq in Hc as ->. }
  destruct (py_eq_str st "failed") eqn:Hf.
  { destruct (py_get d "error" (VStr "Download failed"));
      intros [= <- <-]; by exists (ev_sink op d). }
  destruct (py_eq_str st "cancelled") eqn:Hcan.
  { intros [= <- <-]. by exists (ev_sink op d). }
  unfold sleep, call. cbn [world trace].
  destruct (time_sleep t w2) as [[[]|e0] w3]; intros [= <- <-]; cbn [trace].
  - exists d. split; [|by rewrite <- app_assoc].
    unfold is_pending. by rewrite Hst, Hc, Hf, Hcan.
  - exists (ev_sink op d ++ [EvSleep t])%list. split; [by rewrite <- app_assoc|].
    unfold quiet. destruct op; cbn; repeat split; auto with lia; discriminate.
Qed.

Lemma body_inv self id op t s r s' :
  body self id op t s = (r, s') →
  match r with
  | Ret Continue =>
      ∃ d, is_pending d = true
           ∧ trace s' = (trace s ++ ev_status self id :: ev_sink op d ++ [EvSleep t])%list
  | Ret (Return d) =>
      has_status d "completed"
      ∧ trace s' = (trace s ++ ev_status self id :: ev_sink op d)%list
  | Raise e =>
      ∃ evs, trace s' = (trace s ++ ev_status self id :: evs
                           ++ if is_KeyboardInterrupt e then [ev_cancel self id] else [])%list
             ∧ quiet op t evs
  end.
Proof.
  destruct s as [w tr]. rewrite (body_eq session_request time_sleep).
  destruct (poll self id op t {| world := w; trace := tr |}) as [r0 s0] eqn:Hp.
  apply poll_inv in Hp. destruct r0 as [c|e].
  - intros [= <- <-]. exact Hp.
  - destruct Hp as (evs & Htr & Hq). cbn [trace] in Htr.
    destruct (is_KeyboardInterrupt e) eqn:He; intros [= <- <-]; rewrite ?He;
      exists evs; cbn [trace]; rewrite Htr; split; try done.
    + by rewrite <- app_assoc.
    + by rewrite app_nil_r.
Qed.

Lemma sleeps_pending_events self id op t ds :
  sleeps (pending_events self id op t ds) = replicate (length ds) t.
Proof.
  induction ds as [|d ds IH]; [reflexivity|].
  change (pending_events self id op t (d :: ds))
    with ((ev_status self id :: ev_sink op d ++ [EvSleep t])
            ++ pending_events self id op t ds)%list.
  unfold sleeps in *. rewrite omap_app, IH. destruct op; reflexivity.
Qed.

Lemma sink_args_pending_events_bound self id op t ds :
  (length (sink_args (pending_events self id op t ds)) ≤ length ds)%nat
  ∧ (op = None → sink_args (pending_events self id op t ds) = []).
Proof.
  induction ds as [|d ds [IH1 IH2]]; [by cbn|].
  change (pending_events self id op t (d :: ds))
    with ((ev_status self id :: ev_sink op d ++ [EvSleep t])
            ++ pending_events self id op t ds)%list.
  unfold sink_args in *. rewrite omap_app, length_app.
  destruct op; cbn; split; auto with lia. discriminate.
Qed.

(** The shape of every run that ends: passes over pending records, then a
    last pass. *)
Lemma wait_inv self id op t fuel s r s' :
  wait fuel self id op t s = Some (r, s') →
  ∃ ds evs,
    Forall (λ d, is_pending d = true) ds
    ∧ trace s' = (trace s ++ pending_events self id op t ds ++ ev_status self id :: evs
                    ++ if interrupted_result r then [ev_cancel self id] else [])%list
    ∧ quiet op t evs
    ∧ (∀ d, r = Ret d → has_status d "completed" ∧ evs = ev_sink op d).
Proof.
  revert s. induction fuel as [|fuel IH]; intros s; [discriminate|].
  cbn [wait_for_completion].
  destruct (body self id op t s) as [[[|d]|e] s1] eqn:Hb; apply body_inv in Hb.
  - destruct Hb as (d & Hd & Htr). intros (ds & evs & Hds & Htr' & Hq & Hr)%IH.
    exists (d :: ds), evs. split; [by constructor|]. split; [|done].
    rewrite Htr', Htr. unfold pending_events. cbn [mbind list_bind].
    by rewrite <- !app_assoc.
  - destruct Hb as [Hd Htr]. intros [= <- <-]. exists [], (ev_sink op d).
    split; [constructor|]. cbn [interrupted_result]. rewrite app_nil_r.
    split; [done|]. split.
    + unfold quiet. destruct op; cbn; repeat split; auto with lia. discriminate.
    + by intros ? [= <-].
  - destruct Hb as (evs & Htr & Hq). intros [= <- <-]. exists [], evs.
    split; [constructor|]. split; [done|]. split; [done|]. discriminate.
Qed.

(** X1: the poller returns a record only when that record says completed.
    The run then consisted of passes over pending records, each a status
    request, the callback and a sleep, and a last pass with the status
    request and the callback for the record returned. *)
Theorem wait_for_completion_returns_only_completed self id op t fuel s d s' :
  wait fuel self id op t s = Some (Ret d, s') →
  has_status d "completed"
  ∧ ∃ ds, Forall (λ d', is_pending d' = true) ds
          ∧ trace s' = (trace s ++ pending_events self id op t ds
                          ++ ev_status self id :: ev_sink op d)%list.
Proof.
  intros (ds & evs & Hds & Htr & _ & Hr)%wait_inv.
  destruct (Hr d eq_refl) as [Hd ->]. split; [done|]. exists ds. split; [done|].
  cbn [interrupted_result] in Htr. by rewrite app_nil_r in Htr.
Qed.

Lemma requests_app (a b : list (event duration)) :
  requests (a ++ b) = (requests a ++ requests b)%list.
Proof. apply omap_app. Qed.

Lemma sleeps_app (a b : list (event duration)) :
  sleeps (a ++ b) = (sleeps a ++ sleeps b)%list.
Proof. apply omap_app. Qed.

Lemma sink_args_app (a b : list (event duration)) :
  sink_args (a ++ b) = (sink_args a ++ sink_args b)%list.
Proof. apply omap_app. Qed.

(** X2: in every run that ends, the requests sent are status requests for
    the download, at least one, followed by one cancel request exactly when
    the run ends with [KeyboardInterrupt]; nothing else is ever requested.
    Every sleep lasts [check_interval], and there are no more sleeps and no
    more callback calls than status requests; without a callback nothing is
    called back. *)
Theorem wait_for_completion_requests self id op t fuel s r s' :
  wait fuel self id op t s = Some (r, s') →
  ∃ new n,
    trace s' = (trace s ++ new)%list
    ∧ requests new
      = (replicate (S n) ("GET", status_url self id)
           ++ if interrupted_result r then [("DELETE", status_url self id)] else [])%list
    ∧ Forall (eq t) (sleeps new)
    ∧ (length (sleeps new) ≤ S n)%nat
    ∧ (length (sink_args new) ≤ S n)%nat
    ∧ (op = None → sink_args new = []).
Proof.
  intros (ds & evs & Hds & Htr & (Hreq & Hsl & Hsl1 & Hsk1 & Hsk0) & _)%wait_inv.
  eexists _, (length ds). split; [exact Htr|].
  pose proof (sink_args_pending_events_bound self id op t ds) as [Hb1 Hb0].
  assert (Htail : ∀ b : bool,
            let tail : list (event duration) := if b then [ev_cancel self id] else [] in
            sleeps tail = [] ∧ sink_args tail = []
            ∧ requests tail = if b then [("DELETE", status_url self id)] else [])
    by (by intros []).
  destruct (Htail (interrupted_result r)) as (Ht1 & Ht2 & Ht3).
  change (ev_status self id :: evs ++ if interrupted_result r then [ev_cancel self id] else [])
    with ([ev_status self id] ++ evs
            ++ if interrupted_result r then [ev_cancel self id] else [])%list.
  rewrite !requests_app, !sleeps_app, !sink_args_app, Hreq, Ht1, Ht2, Ht3.
  rewrite (requests_pending_events self id op t ds), sleeps_pending_events.
  change (requests [ev_status self id]) with [("GET", status_url self id)].
  change (sleeps [ev_status self id]) with (@nil duration).
  change (sink_args [ev_status self id]) with (@nil pyval).
  cbn [app]. rewrite !app_nil_r.
  repeat split.
  - by rewrite replicate_S_end, <- app_assoc.
  - apply Forall_app. split; [by apply Forall_replicate|done].
  - rewrite length_app, length_replicate. lia.
  - rewrite length_app. lia.
  - intros Hop. by rewrite Hb0, Hsk0.
Qed.

(** X3: the poller has no timeout.  While the service keeps answering with
    a pending record, the callback keeps returning and no sleep is
    disturbed, the loop is still running after any number of passes. *)
Theorem wait_for_completion_no_timeout self id op t :
  (∀ w, ∃ response w1 d w2 w3,
     session_request "GET" (status_url self id) NoKwargs w = (HttpOk response, w1)
     ∧ sample_of response = Some d ∧ is_pending d = true
     ∧ sink_returns op d w1 w2 ∧ time_sleep t w2 = (Ret tt, w3)) →
  ∀ fuel s, wait fuel self id op t s = None.
Proof.
  intros Hw fuel. induction fuel as [|fuel IH]; intros [w tr]; [reflexivity|].
  destruct (Hw w) as (response & w1 & d & w2 & w3 & Hq & Hs & Hd & Hsink & Hsl).
  rewrite (wait_pass session_request time_sleep _ _ _ _ _ _ _ _ _ _ _ _ Hq Hs Hd Hsink Hsl).
  apply IH.
Qed.

(** X4: a reply whose [success] entry is missing or falsy ends the call with
    [Exception] carrying the reply's [error] entry, or "Unknown error"
    without one.  The record in the reply, if any, is not looked at: the
    callback is not called, and nothing but the one status request is
    sent. *)
Theorem wait_for_completion_unsuccessful_reply self id op t w tr m w1 fuel :
  session_request "GET" (status_url self id) NoKwargs w = (HttpOk (VDict m), w1) →
  truthy (default VNone (m !! "success")) = false →
  wait (S fuel) self id op t {| world := w; trace := tr |}
  = Some (Raise (Exception (default (VStr "Unknown error") (m !! "error"))),
          {| world := w1; trace := tr ++ [ev_status self id] |}).
Proof.
  intros Hq Hs. cbn [wait_for_completion].
  rewrite (body_eq session_request time_sleep).
  unfold poll_once, mbind, M_bind. rewrite (get_status_eq session_request), Hq.
  cbn [lift py_get].
  destruct (m !! "success") as [success|]; cbn in Hs; rewrite ?Hs; cbn [truthy negb];
    by destruct (m !! "error").
Qed.

(** X5: a successful reply without a [data] entry ends the call with
    [KeyError] for "data"; the callback is not called and nothing but the
    one status request is sent. *)
Theorem wait_for_completion_reply_without_data self id op t w tr m success w1 fuel :
  session_request "GET" (status_url self id) NoKwargs w = (HttpOk (VDict m), w1) →
  m !! "success" = Some success →
  truthy success = true →
  m !! "data" = None →
  wait (S fuel) self id op t {| world := w; trace := tr |}
  = Some (Raise (KeyError "data"), {| world := w1; trace := tr ++ [ev_status self id] |}).
Proof.
  intros Hq Hs Ht Hd. cbn [wait_for_completion].
  rewrite (body_eq session_request time_sleep).
  unfold poll_once, mbind, M_bind. rewrite (get_status_eq session_request), Hq.
  cbn [lift py_get py_index]. rewrite Hs, Ht, Hd. reflexivity.
Qed.

(** X6: a record without a [status] entry, or one that is no dictionary, is
    still handed to the callback; only then does the call end, with
    [KeyError] for "status" or with [TypeError]. *)
Theorem wait_for_completion_record_without_status
    self id op t w tr response w1 d w2 e fuel :
  session_request "GET" (status_url self id) NoKwargs w = (HttpOk response, w1) →
  sample_of response = Some d →
  sink_returns op d w1 w2 →
  py_index d "status" = Raise e →
  wait (S fuel) self id op t {| world := w; trace := tr |}
    = Some (Raise e, {| world := w2; trace := tr ++ ev_status self id :: ev_sink op d |})
  ∧ (e = KeyError "status" ∨ e = TypeError).
Proof.
  intros Hq Hs Hsink He. split.
  - assert (Hd : is_pending d = false) by (unfold is_pending; by rewrite He).
    rewrite (wait_terminal session_request time_sleep _ _ _ _ _ _ _ _ _ _ _ Hq Hs Hd Hsink).
    unfold terminal_outcome. by rewrite He.
  - unfold py_index in He. destruct d as [| | | | |m']; try (injection He as <-; by right).
    destruct (m' !! "status"); [discriminate|]. injection He as <-. by left.
Qed.

End PollerInvariants.

(** ** Requests and the whole workflow *)

Section WorkflowProperties.
Context {W duration : Type}.
Variable session_request : string → string → kwargs → W → http_outcome * W.
Variable time_sleep : duration → W → result unit * W.
Variable py_str : pyval → string.
Variable default_check_interval : duration.

Notation make_request := (_make_request W duration session_request).
Notation run := (download_with_progress W duration session_request time_sleep
                   py_str default_check_interval).
Notation polls_from := (polls W duration session_request time_sleep).

Implicit Types (self : LemolexAPI) (op : option (callback W))
  (w : W) (tr : list (event duration)) (s : state W duration).

(** X7: whatever the session answers, [_make_request] sends exactly one
    request, to the base URL followed by the endpoint; it returns a value
    exactly when the session delivered a JSON body, and that body is the
    value; a [RequestException] always comes out as an exception, an
    [Exception] or, for an error body that is JSON but no object,
    [AttributeError]. *)
Theorem make_request_one_request self method endpoint kw s :
  let url := base_url self ++ endpoint in
  let out := make_request self method endpoint kw s in
  let reply := session_request method url kw (world s) in
  out.2 = {| world := reply.2; trace := trace s ++ [EvRequest method url kw] |}
  ∧ (∀ body, out.1 = Ret body ↔ reply.1 = HttpOk body)
  ∧ (∀ str_e rsp, reply.1 = HttpRequestException str_e rsp →
       ∃ e, out.1 = Raise e ∧ is_KeyboardInterrupt e = false
            ∧ (e = AttributeError ∨ ∃ msg, e = Exception msg)).
Proof.
  intros url out reply. subst url out reply.
  unfold _make_request, call. destruct s as [w tr]. cbn [world trace].
  destruct (session_request method (base_url self ++ endpoint) kw w) as [o w1].
  cbn [fst snd].
  destruct o as [body|str_e [[code txt [ed|]]|]|e]; cbn [json_body fst snd];
    unfold mbind, M_bind, lift, raise;
    try destruct (py_get ed "error" (VStr str_e)) as [x|e'] eqn:Hg; cbn [fst snd];
    (split; [reflexivity|split]);
    try (intros ?; split; intros [= ->]; reflexivity);
    try (intros; discriminate);
    try (intros ?; split; intros; discriminate);
    intros ? ? [= <- <-]; eexists; (split; [reflexivity|]); eauto.
  destruct ed; cbn in Hg; try discriminate; injection Hg as <-; eauto.
Qed.


(** The request that starts a download. *)
Lemma download_video_eq self url format quality output_path filename
    cookies cookies_from_browser user_agent w tr :
  download_video W duration session_request self url format quality output_path
    filename cookies cookies_from_browser user_agent {| world := w; trace := tr |}
  = make_request self "POST" "/download"
      (JsonBody (Payload.download_video_data url format quality output_path filename
                   cookies cookies_from_browser user_agent))
      {| world := w; trace := tr |}.
Proof. reflexivity. Qed.

(** X8: when the request that starts the download does not deliver a JSON
    body, [download_with_progress] ends with the exception of that request
    and has sent nothing else: no status request is made, and no cancel
    request either, also when the exception is a [KeyboardInterrupt]. *)
Theorem download_with_progress_start_fails
    self url format quality output_path filename cookies cookies_from_browser user_agent
    op w tr o w1 fuel :
  let data := Payload.download_video_data url format quality output_path filename
                cookies cookies_from_browser user_agent in
  let post : event duration :=
    EvRequest "POST" (base_url self ++ "/download") (JsonBody data) in
  session_request "POST" (base_url self ++ "/download") (JsonBody data) w = (o, w1) →
  (∀ body, o ≠ HttpOk body) →
  ∃ e, run fuel self url format quality output_path filename
         cookies cookies_from_browser user_agent op {| world := w; trace := tr |}
       = Some (Raise e, {| world := w1; trace := tr ++ [post] |})
       ∧ (∀ e', o = HttpRaises e' → e = e')
       ∧ (∀ str_e rsp, o = HttpRequestException str_e rsp → e = transport_error str_e rsp).
Proof.
  intros data post Hq Ho. unfold download_with_progress. rewrite download_video_eq.
  pose proof (make_request_one_request self "POST" "/download" (JsonBody data)
                {| world := w; trace := tr |}) as (Hst & Hret & _).
  cbn [world trace] in Hst, Hret. rewrite Hq in Hst, Hret. cbn [fst snd] in Hst, Hret.
  fold data.
  destruct (make_request self "POST" "/download" (JsonBody data)
              {| world := w; trace := tr |}) as [[body|e] s1] eqn:Hm.
  { destruct (Ho body). by apply Hret. }
  cbn [snd] in Hst. subst s1. exists e. split; [reflexivity|].
  unfold _make_request, call in Hm. cbn [world trace] in Hm. rewrite Hq in Hm.
  split.
  - intros e' ->. by injection Hm as <-.
  - intros str_e rsp ->. unfold transport_error.
    destruct rsp as [[code txt [ed|]]|]; cbn [json_body] in Hm |- *;
      try (by injection Hm as <-).
    unfold mbind, M_bind, lift, raise in Hm.
    destruct (py_get ed "error" (VStr str_e)); by injection Hm as <-.
Qed.

(** X9: when the reply to the start request has no [data] entry, or its
    [data] has no [id], [download_with_progress] ends with the lookup's
    exception right after the start request: the download it has just
    started is neither watched nor cancelled. *)
Theorem download_with_progress_reply_without_id
    self url format quality output_path filename cookies cookies_from_browser user_agent
    op w tr body w1 e fuel :
  let data := Payload.download_video_data url format quality output_path filename
                cookies cookies_from_browser user_agent in
  let post : event duration :=
    EvRequest "POST" (base_url self ++ "/download") (JsonBody data) in
  session_request "POST" (base_url self ++ "/download") (JsonBody data) w
    = (HttpOk body, w1) →
  py_index body "data" = Raise e
  ∨ (∃ record, py_index body "data" = Ret record ∧ py_index record "id" = Raise e) →
  run fuel self url format quality output_path filename
    cookies cookies_from_browser user_agent op {| world := w; trace := tr |}
  = Some (Raise e, {| world := w1; trace := tr ++ [post] |}).
Proof.
  intros data post Hq He. unfold download_with_progress, download_video, _make_request, call.
  cbn [world trace]. fold data. rewrite Hq.
  destruct He as [->|(record & -> & ->)]; reflexivity.
Qed.

(** X10: when the start request is answered with a record that has an id,
    [download_with_progress] is that request followed by a run of the
    poller on [str] of that id under the default interval: after pending
    records and a record that ends the loop, the outcome is the poller's
    outcome for that record, and all status requests go to that id. *)
Theorem download_with_progress_polls_started_id
    self url format quality output_path filename cookies cookies_from_browser user_agent
    op w tr body w1 record download_id ds w' response w2 d w3 fuel :
  let data := Payload.download_video_data url format quality output_path filename
                cookies cookies_from_browser user_agent in
  let post : event duration :=
    EvRequest "POST" (base_url self ++ "/download") (JsonBody data) in
  let id := py_str download_id in
  session_request "POST" (base_url self ++ "/download") (JsonBody data) w
    = (HttpOk body, w1) →
  py_index body "data" = Ret record →
  py_index record "id" = Ret download_id →
  polls_from self id op default_check_interval w1 ds w' →
  session_request "GET" (status_url self id) NoKwargs w' = (HttpOk response, w2) →
  sample_of response = Some d →
  is_pending d = false →
  sink_returns op d w2 w3 →
  run (length ds + S fuel) self url format quality output_path filename
    cookies cookies_from_browser user_agent op {| world := w; trace := tr |}
  = Some (terminal_outcome d,
          {| world := w3;
             trace := tr ++ post :: pending_events self id op default_check_interval ds
                         ++ ev_status self id :: ev_sink op d |}).
Proof.
  intros data post id Hq Hrec Hid Hp Hg Hs Hd Hsink.
  unfold download_with_progress, download_video, _make_request, call.
  cbn [world trace]. fold data. rewrite Hq, Hrec, Hid. fold id.
  rewrite (wait_polls_terminal session_request time_sleep _ _ _ _ _ _ _ _ _ _ _ _ fuel
             Hp Hg Hs Hd Hsink).
  by rewrite <- app_assoc.
Qed.

End WorkflowProperties.

(** ** The constructor and the helpers *)

Section Helpers.

Lemma append_nil_l (s : string) : EmptyString ++ s = s.
Proof. reflexivity. Qed.

Lemma append_cons (a : ascii) (s t : string) : String a s ++ t = String a (s ++ t).
Proof. reflexivity. Qed.

Lemma rstrip_all (c : ascii) (tail : string) :
  Forall (eq c) (String.list_ascii_of_string tail) → rstrip tail c = EmptyString.
Proof.
  induction tail as [|a tail IH]; [reflexivity|]. cbn.
  intros [<- Ht]%Forall_cons. rewrite (IH Ht). by rewrite Ascii.eqb_refl.
Qed.

Lemma rstrip_app_all (s tail : string) (c : ascii) :
  Forall (eq c) (String.list_ascii_of_string tail) → rstrip (s ++ tail) c = rstrip s c.
Proof.
  intros Ht. induction s as [|a s IH]; simpl.
  - by apply rstrip_all.
  - by rewrite IH.
Qed.

Lemma rstrip_split (s : string) (c : ascii) :
  ∃ tail, s = rstrip s c ++ tail ∧ Forall (eq c) (String.list_ascii_of_string tail).
Proof.
  induction s as [|a s (tail & Hs & Ht)]; [by exists EmptyString|]. simpl.
  destruct (rstrip s c) as [|b r] eqn:Hr.
  - change (s = tail) in Hs. subst tail.
    destruct (Ascii.eqb_spec a c) as [->|Hne].
    + exists (String c s). split; [done|]. by constructor.
    + by exists s.
  - exists tail. split; [|done].
    change (String a s = String a (String b r ++ tail)). by rewrite <- Hs.
Qed.

Lemma rstrip_no_trailing (s p : string) (c : ascii) :
  rstrip s c ≠ p ++ String c EmptyString.
Proof.
  revert p. induction s as [|a s IH]; intros p; simpl.
  - by destruct p.
  - destruct (rstrip s c) as [|b r] eqn:Hr.
    + destruct (Ascii.eqb_spec a c) as [->|Hne]; [by destruct p|].
      intros H. by destruct p as [|x [|y p]];
        rewrite ?append_cons, ?append_nil_l in H; simplify_eq.
    + intros H. destruct p as [|x p];
        rewrite ?append_cons, ?append_nil_l in H; simplify_eq. by apply (IH p).
Qed.

(** X11: [rstrip] removes a trailing run of the character and nothing
    else: the input is the result followed by copies of the character, and
    the result does not end in the character. *)
Theorem rstrip_removes_trailing_run (s : string) (c : ascii) :
  (∃ tail, s = rstrip s c ++ tail ∧ Forall (eq c) (String.list_ascii_of_string tail))
  ∧ (∀ p, rstrip s c ≠ p ++ String c EmptyString).
Proof. split; [apply rstrip_split|intros p; apply rstrip_no_trailing]. Qed.

(** X12: trailing slashes in the base URL make no difference to the client:
    a URL followed by any number of slashes gives the same client, so the
    same request URLs, as the URL itself; the stored base URL never ends in
    a slash; and building a client from a stored base URL changes
    nothing. *)
Theorem init_ignores_trailing_slashes (url tail : string) :
  Forall (eq "/"%char) (String.list_ascii_of_string tail) →
  __init__ (url ++ tail) = __init__ url
  ∧ (∀ p, base_url (__init__ url) ≠ p ++ "/")
  ∧ __init__ (base_url (__init__ url)) = __init__ url.
Proof.
  intros Ht. unfold __init__. cbn [base_url]. split; [|split].
  - by rewrite rstrip_app_all.
  - intros p. apply rstrip_no_trailing.
  - f_equal. destruct (rstrip_split url "/"%char) as (tl & Hs & Htl).
    rewrite Hs at 2. by rewrite rstrip_app_all.
Qed.

(** X13: the query parameters of [get_all_downloads] always carry [limit],
    whatever its value, zero and [None] included; they carry [status]
    exactly when it is truthy; and they carry nothing else. *)
Theorem get_all_downloads_params_keys (status limit : pyval) :
  let params := get_all_downloads_params status limit in
  params !! "limit" = Some limit
  ∧ params !! "status" = (if truthy status then Some status else None)
  ∧ dom params = (if truthy status then {["limit"; "status"]} else {["limit"]}).
Proof.
  unfold get_all_downloads_params. destruct (truthy status); cbn zeta.
  - split; [by simplify_map_eq|]. split; [by simplify_map_eq|].
    rewrite dom_insert_L, dom_singleton_L. set_solver.
  - split; [by simplify_map_eq|]. split; [by simplify_map_eq|].
    by rewrite dom_singleton_L.
Qed.


(** *** Durations *)

Lemma pretty_N_digit (x : N) :
  (x < 10)%N → pretty x = String (pretty_N_char x) EmptyString.
Proof.
  intros Hx. unfold pretty, pretty_N. case_decide as H0; [by subst|].
  rewrite pretty_N_go_step by lia.
  by rewrite N.div_small, N.mod_small, pretty_N_go_0 by lia.
Qed.

Lemma pretty_N_two_digits (x : N) :
  (10 ≤ x < 100)%N →
  pretty x = String (pretty_N_char (x `div` 10))
               (String (pretty_N_char (x `mod` 10)) EmptyString).
Proof.
  intros Hx. unfold pretty, pretty_N. case_decide as H0; [lia|].
  assert (0 < x `div` 10 < 10)%N as [??].
  { split; [apply N.div_str_pos; lia|apply N.Div0.div_lt_upper_bound; lia]. }
  rewrite pretty_N_go_step by lia. rewrite pretty_N_go_step by lia.
  by rewrite N.div_small, (N.mod_small (x `div` 10)), pretty_N_go_0 by lia.
Qed.

Lemma pretty_Z_nonneg (n : Z) : (0 ≤ n)%Z → pretty n = pretty (Z.to_N n).
Proof. by destruct n. Qed.

(** A two-digit field: the tens and the units. *)
Lemma fmt_02d_digits (n : Z) :
  (0 ≤ n < 100)%Z →
  fmt_02d n = String (pretty_N_char (Z.to_N n `div` 10))
                (String (pretty_N_char (Z.to_N n `mod` 10)) EmptyString).
Proof.
  intros Hn. unfold fmt_02d. rewrite pretty_Z_nonneg by lia. case_bool_decide.
  - rewrite pretty_N_digit by lia. by rewrite N.div_small, N.mod_small by lia.
  - apply pretty_N_two_digits. lia.
Qed.

Lemma fmt_02d_inj (a b : Z) :
  (0 ≤ a < 100)%Z → (0 ≤ b < 100)%Z → fmt_02d a = fmt_02d b → a = b.
Proof.
  intros Ha Hb. rewrite !fmt_02d_digits by done. intros [= H1 H2].
  apply pretty_N_char_inj in H1; [|apply N.Div0.div_lt_upper_bound; lia..].
  apply pretty_N_char_inj in H2; [|by apply N.mod_lt..].
  assert (Z.to_N a = Z.to_N b); [|lia].
  rewrite (N.div_mod (Z.to_N a) 10), (N.div_mod (Z.to_N b) 10) by done. lia.
Qed.

Lemma append_length (s t : string) :
  String.length (s ++ t) = (String.length s + String.length t)%nat.
Proof. induction s as [|a s IH]; [done|]. rewrite append_cons. cbn. by rewrite IH. Qed.

Lemma append_inj_length (a a' t t' : string) :
  String.length t = String.length t' → a ++ t = a' ++ t' → a = a' ∧ t = t'.
Proof.
  intros Hlen. revert a'. induction a as [|x a IH]; intros [|y a'];
    rewrite ?append_cons, ?append_nil_l; intros H.
  - done.
  - apply (f_equal String.length) in H. rewrite <- append_cons, append_length in H.
    cbn in H. lia.
  - apply (f_equal String.length) in H. rewrite <- append_cons, append_length in H.
    cbn in H. lia.
  - injection H as -> H. by destruct (IH _ H) as [-> ->].
Qed.

(** The early return for zero agrees with the general rule. *)
Lemma format_duration_eq (seconds : Z) :
  format_duration seconds
  = let hours := (seconds `div` 3600)%Z in
    let minutes := ((seconds `mod` 3600) `div` 60)%Z in
    let secs := (seconds `mod` 60)%Z in
    if bool_decide (0 < hours)%Z
    then pretty hours ++ ":" ++ fmt_02d minutes ++ ":" ++ fmt_02d secs
    else pretty minutes ++ ":" ++ fmt_02d secs.
Proof. unfold format_duration. case_bool_decide as H0; [by subst|done]. Qed.

(** X14: a negative duration loses its hours: it is shown as the minutes
    and seconds of its remainder modulo one hour, so [-1] reads "59:59". *)
Theorem format_duration_negative (seconds : Z) :
  (seconds < 0)%Z →
  format_duration seconds = format_duration (seconds `mod` 3600)
  ∧ format_duration seconds
    = pretty ((seconds `mod` 3600) `div` 60)%Z ++ ":" ++ fmt_02d (seconds `mod` 60).
Proof.
  intros Hneg. rewrite !format_duration_eq. cbn zeta.
  assert (Hh : (seconds `div` 3600 < 0)%Z) by (apply Z.div_lt_upper_bound; lia).
  assert (Hr : (0 ≤ seconds `mod` 3600 < 3600)%Z) by (apply Z.mod_pos_bound; lia).
  rewrite (bool_decide_eq_false_2 (0 < seconds `div` 3600)%Z) by lia.
  rewrite (Z.div_small (seconds `mod` 3600) 3600) by done.
  rewrite (bool_decide_eq_false_2 (0 < 0)%Z) by lia.
  rewrite (Z.mod_small (seconds `mod` 3600) 3600) by done.
  rewrite (Z.mod_mod_divide seconds 3600 60); [done|]. by exists 60%Z.
Qed.

(** X15: durations that are not negative are never shown alike: two of
    them with the same text are the same duration. *)
Theorem format_duration_inj (a b : Z) :
  (0 ≤ a)%Z → (0 ≤ b)%Z → format_duration a = format_duration b → a = b.
Proof.
  intros Ha Hb. rewrite !format_duration_eq. cbn zeta.
  pose proof (Z.div_mod a 3600 ltac:(lia)) as Ea.
  pose proof (Z.div_mod b 3600 ltac:(lia)) as Eb.
  pose proof (Z.mod_pos_bound a 3600 ltac:(lia)) as Ba.
  pose proof (Z.mod_pos_bound b 3600 ltac:(lia)) as Bb.
  pose proof (Z.div_pos a 3600 Ha ltac:(lia)) as Ha0.
  pose proof (Z.div_pos b 3600 Hb ltac:(lia)) as Hb0.
  assert (Hma : (a `mod` 60 = (a `mod` 3600) `mod` 60)%Z).
  { rewrite (Z.mod_mod_divide a 3600 60); [done|]. by exists 60%Z. }
  assert (Hmb : (b `mod` 60 = (b `mod` 3600) `mod` 60)%Z).
  { rewrite (Z.mod_mod_divide b 3600 60); [done|]. by exists 60%Z. }
  rewrite Hma, Hmb.
  set (ra := (a `mod` 3600)%Z) in *. set (rb := (b `mod` 3600)%Z) in *.
  pose proof (Z.div_mod ra 60 ltac:(lia)) as Era.
  pose proof (Z.div_mod rb 60 ltac:(lia)) as Erb.
  pose proof (Z.mod_pos_bound ra 60 ltac:(lia)) as Bra.
  pose proof (Z.mod_pos_bound rb 60 ltac:(lia)) as Brb.
  assert (0 ≤ ra `div` 60 < 60)%Z as Bma.
  { split; [apply Z.div_pos; lia|apply Z.div_lt_upper_bound; lia]. }
  assert (0 ≤ rb `div` 60 < 60)%Z as Bmb.
  { split; [apply Z.div_pos; lia|apply Z.div_lt_upper_bound; lia]. }
  set (ma := (ra `div` 60)%Z) in *. set (mb := (rb `div` 60)%Z) in *.
  set (sa := (ra `mod` 60)%Z) in *. set (sb := (rb `mod` 60)%Z) in *.
  rewrite (fmt_02d_digits ma), (fmt_02d_digits mb),
    (fmt_02d_digits sa), (fmt_02d_digits sb) by lia.
  assert (Hlen : ∀ m, (0 ≤ m < 60)%Z → (String.length (pretty m) ≤ 2)%nat).
  { intros m Hm. rewrite pretty_Z_nonneg by lia.
    destruct (decide (Z.to_N m < 10)%N).
    - rewrite pretty_N_digit by done. cbn. lia.
    - rewrite pretty_N_two_digits by lia. cbn. lia. }
  repeat case_bool_decide; intros Heq; rewrite ?append_cons, ?append_nil_l in Heq.
  - apply append_inj_length in Heq; [|reflexivity]. destruct Heq as [Hh Ht].
    apply (inj pretty) in Hh. injection Ht as E1 E2 E3 E4.
    assert (ma = mb).
    { apply fmt_02d_inj; [lia..|]. rewrite !fmt_02d_digits by lia. congruence. }
    assert (sa = sb).
    { apply fmt_02d_inj; [lia..|]. rewrite !fmt_02d_digits by lia. congruence. }
    lia.
  - apply (f_equal String.length) in Heq. rewrite !append_length in Heq.
    cbn in Heq. specialize (Hlen mb Bmb). lia.
  - apply (f_equal String.length) in Heq. rewrite !append_length in Heq.
    cbn in Heq. specialize (Hlen ma Bma). lia.
  - apply append_inj_length in Heq; [|reflexivity]. destruct Heq as [Hm Ht].
    apply (inj pretty) in Hm. injection Ht as E1 E2.
    assert (sa = sb).
    { apply fmt_02d_inj; [lia..|]. rewrite !fmt_02d_digits by lia. congruence. }
    lia.
Qed.


(** *** Sizes *)


End Helpers.

(** ** The further properties on concrete inputs *)

Section FurtherRuns.
Import Scripted.

Notation served http :=
  {| http_script := http; sleep_script := []; sink_script := [] |}.

#[local] Ltac run_further :=
  repeat match goal with
         | |- polls _ _ _ _ _ _ _ _ _ [] _ => apply polls_nil
         | |- polls _ _ _ _ _ _ _ _ _ (_ :: _) _ => eapply polls_cons
         | |- sink_returns (Some _) _ _ _ => eexists
         | |- _ = _ => reflexivity
         end.

Lemma wait_for_completion_returns_only_completed_witness :
  has_status completed "completed"
  ∧ ∃ ds, Forall (λ d', is_pending d' = true) ds
          ∧ [GET; EvSink starting; EvSleep tt; GET; EvSink completed]
            = ([] ++ pending_events api "job-1" (Some sink) tt ds
                 ++ ev_status api "job-1" :: ev_sink (Some sink) completed)%list.
Proof.
  apply (wait_for_completion_returns_only_completed session_request time_sleep
           api "job-1" (Some sink) tt 2 (init [ok starting; ok completed] [] [])
           completed
           {| world := {| http_script := []; sleep_script := []; sink_script := [] |};
              trace := [GET; EvSink starting; EvSleep tt; GET; EvSink completed] |}).
  reflexivity.
Defined.

Lemma wait_for_completion_requests_witness :
  ∃ new n,
    [GET; EvSink (downloading 30); EvSleep tt; DELETE] = ([] ++ new)%list
    ∧ requests new = (replicate (S n) ("GET", url) ++ [("DELETE", url)])%list
    ∧ Forall (eq tt) (sleeps new)
    ∧ (length (sleeps new) ≤ S n)%nat
    ∧ (length (sink_args new) ≤ S n)%nat
    ∧ (Some sink = None → sink_args new = []).
Proof.
  apply (wait_for_completion_requests session_request time_sleep
           api "job-1" (Some sink) tt 2
           (init [ok (downloading 30); cancel_ok] [Raise KeyboardInterrupt] [])
           (Raise KeyboardInterrupt)
           {| world := {| http_script := []; sleep_script := []; sink_script := [] |};
              trace := [GET; EvSink (downloading 30); EvSleep tt; DELETE] |}).
  reflexivity.
Defined.

Lemma wait_for_completion_no_timeout_witness :
  Stuck.wait 1000 {| world := 0; trace := [] |} = None.
Proof.
  refine (wait_for_completion_no_timeout Stuck.session_request Settled.time_sleep
            api "job-1" (Some Settled.sink) tt _ 1000 {| world := 0; trace := [] |}).
  intros w. eexists _, _, _, _, _. repeat split; try reflexivity. by eexists.
Defined.

Lemma wait_for_completion_unsuccessful_reply_witness :
  wait 1 true
    (init [HttpOk (VDict (<["success" := VBool false]>
                            (<["error" := VStr "Download not found"]>
                               {[ "data" := completed ]})))] [] [])
  = Some (Raise (Exception (VStr "Download not found")),
          {| world := {| http_script := []; sleep_script := []; sink_script := [] |};
             trace := [GET] |}).
Proof.
  refine (wait_for_completion_unsuccessful_reply session_request time_sleep
           api "job-1" (Some sink) tt
           (served [HttpOk (VDict (<["success" := VBool false]>
                                     (<["error" := VStr "Download not found"]>
                                        {[ "data" := completed ]})))])
           []
           (<["success" := VBool false]>
              (<["error" := VStr "Download not found"]> {[ "data" := completed ]}))
           (served []) 0 _ _); reflexivity.
Defined.

Lemma wait_for_completion_reply_without_data_witness :
  wait 1 true (init [cancel_ok; ok completed] [] [])
  = Some (Raise (KeyError "data"),
          {| world := {| http_script := [ok completed]; sleep_script := [];
                         sink_script := [] |};
             trace := [GET] |}).
Proof.
  refine (wait_for_completion_reply_without_data session_request time_sleep
           api "job-1" (Some sink) tt (served [cancel_ok; ok completed]) []
           {[ "success" := VBool true ]} (VBool true) (served [ok completed]) 0
           _ _ _ _); reflexivity.
Defined.

Lemma wait_for_completion_record_without_status_witness :
  wait 1 true (init [ok (job [("id", VStr "job-1")])] [] [])
  = Some (Raise (KeyError "status"),
          {| world := {| http_script := []; sleep_script := []; sink_script := [] |};
             trace := [GET; EvSink (job [("id", VStr "job-1")])] |}).
Proof.
  refine (proj1 (wait_for_completion_record_without_status session_request time_sleep
                   api "job-1" (Some sink) tt _ [] _ _ (job [("id", VStr "job-1")])
                   _ (KeyError "status") 0 _ _ _ _)); try reflexivity.
  by eexists.
Defined.

Lemma make_request_one_request_witness :
  ∃ e, (_make_request script unit session_request api "GET" "/stats" NoKwargs
          (init [HttpRequestException "502 Server Error"
                   (Some {| status_code := 502; text := "[]";
                            json_body := Some (VList []) |})] [] [])).1
       = Raise e
       ∧ is_KeyboardInterrupt e = false
       ∧ (e = AttributeError ∨ ∃ msg, e = Exception msg).
Proof.
  apply (proj2 (proj2 (make_request_one_request session_request api "GET" "/stats"
                         NoKwargs
                         (init [HttpRequestException "502 Server Error"
                                  (Some {| status_code := 502; text := "[]";
                                           json_body := Some (VList []) |})] [] [])))
           "502 Server Error"
           (Some {| status_code := 502; text := "[]"; json_body := Some (VList []) |})).
  reflexivity.
Defined.

Lemma download_with_progress_start_fails_witness :
  ∃ e, ScriptedWorkflow.run 0 [HttpRaises KeyboardInterrupt; cancel_ok] []
       = Some (Raise e,
               {| world := {| http_script := [cancel_ok]; sleep_script := [];
                              sink_script := [] |};
                  trace := [] ++ [ScriptedWorkflow.POST] |})
       ∧ (∀ e', HttpRaises KeyboardInterrupt = HttpRaises e' → e = e')
       ∧ (∀ str_e rsp, HttpRaises KeyboardInterrupt = HttpRequestException str_e rsp
                       → e = transport_error str_e rsp).
Proof.
  apply (download_with_progress_start_fails session_request time_sleep
           ScriptedWorkflow.py_str tt api); [reflexivity|discriminate].
Defined.

Lemma download_with_progress_reply_without_id_witness :
  ScriptedWorkflow.run 5 [cancel_ok; ok completed] []
  = Some (Raise (KeyError "data"),
          {| world := {| http_script := [ok completed]; sleep_script := [];
                         sink_script := [] |};
             trace := [ScriptedWorkflow.POST] |}).
Proof.
  apply (download_with_progress_reply_without_id session_request time_sleep
           ScriptedWorkflow.py_str tt api _ _ _ _ _ _ _ _ _ _ []
           (VDict {[ "success" := VBool true ]}) _ (KeyError "data") 5);
    [reflexivity|by left].
Defined.

Lemma download_with_progress_polls_started_id_witness :
  ScriptedWorkflow.run 2 [ok starting; ok (downloading 30); ok completed] []
  = Some (Ret completed,
          {| world := {| http_script := []; sleep_script := []; sink_script := [] |};
             trace := [ScriptedWorkflow.POST; GET; EvSink (downloading 30); EvSleep tt;
                       GET; EvSink completed] |}).
Proof.
  refine (download_with_progress_polls_started_id session_request time_sleep
            ScriptedWorkflow.py_str tt api _ _ _ _ _ _ _ _ (Some sink) _ [] _ _
            starting (VStr "job-1") [downloading 30] _ _ _ completed _ 0
            _ _ _ _ _ _ _ _); run_further.
Defined.

End FurtherRuns.

Lemma init_ignores_trailing_slashes_witness :
  __init__ ("http://localhost:3001/api" ++ "//") = __init__ "http://localhost:3001/api"
  ∧ (∀ p, base_url (__init__ "http://localhost:3001/api") ≠ p ++ "/")
  ∧ __init__ (base_url (__init__ "http://localhost:3001/api"))
    = __init__ "http://localhost:3001/api".
Proof.
  apply (init_ignores_trailing_slashes "http://localhost:3001/api" "//").
  repeat constructor.
Defined.

Lemma format_duration_negative_witness :
  format_duration (-1) = format_duration ((-1) `mod` 3600)
  ∧ format_duration (-1)
    = pretty (((-1) `mod` 3600) `div` 60)%Z ++ ":" ++ fmt_02d ((-1) `mod` 60).
Proof. apply (format_duration_negative (-1)). reflexivity. Defined.

Lemma format_duration_inj_witness : (3725 = 3600 + 125)%Z.
Proof. apply (format_duration_inj 3725 (3600 + 125)); [discriminate..|reflexivity]. Defined.


